(** * fastapi-microservices: the URL shortener and the to-do service

    A shallow embedding of [shorturl-service/main.py] and
    [todo-service/main.py].  Each service keeps one SQLite table; a table is
    modelled as the list of its rows in rowid order, a request handler as a
    function from the database (and, for [shorten_url], the random generator
    and the clock) to an outcome and the database it leaves behind.

    Conventions.
    - An SQL statement is a function on the table: [find] for
      [SELECT ... fetchone()], [map] for [UPDATE], [filter] for [DELETE],
      append for [INSERT] (the new rowid is the largest).
    - The schema constraints are executed, not assumed: [INSERT] checks
      [UNIQUE] on [short_id] and raises [IntegrityError] when it is violated.
    - SQLite INTEGER values are kept in [Z]; a counter that is incremented
      once per request stays far inside the 64-bit storage range.
    - A raised exception leaves the handler without [commit], so the database
      returned with [Raise] is the one committed so far.
    - [print] calls write to the process log only and are left out, and so
      is [POST /qrcode], which renders an image and touches no table.
    - A string stands for the UTF-8 bytes of the Python string.
    - Library calls the handlers depend on are modelled with the behaviour
      the handlers observe: [sqlite3] refuses to bind an integer outside the
      signed 64-bit range ([OverflowError]), and [RedirectResponse] puts the
      percent-quoted URL into the [Location] header. *)

From Stdlib Require Import ZArith List String Ascii Bool Arith Lia.
From Stdlib Require Import Permutation Sorted.
Import ListNotations.

Local Open Scope string_scope.
Local Open Scope Z_scope.

(** ** Exceptions and outcomes shared by both services *)

Inductive exn : Type :=
| HTTPException (status_code : Z) (detail : string)
| IntegrityError (detail : string)
| TypeError
| OverflowError.

Inductive outcome (A : Type) : Type :=
| Return (a : A)
| Raise (e : exn).

Arguments Return {A} a.
Arguments Raise {A} e.

(** ** The [random] module, as the interface the services use

    [random.choice(seq)] is [seq[randbelow(len(seq))]]; the generator state
    is threaded explicitly. *)

Class RandomGen (G : Type) : Type := {
  randbelow : nat -> G -> nat * G;
  randbelow_lt : forall n g, (0 < n)%nat -> (fst (randbelow n g) < n)%nat
}.

Definition choice {G : Type} `{RandomGen G} (seq : string) (g : G) : ascii * G :=
  let (i, g') := randbelow (String.length seq) g in
  (nth i (list_ascii_of_string seq) zero, g').

(** A generator that replays a tape of raw draws, reduced to the requested
    range.  Every finite behaviour of a generator is the replay of a tape. *)

Record tape : Type := mk_tape { raw : nat -> nat; pos : nat }.

Definition tape_randbelow (n : nat) (t : tape) : nat * tape :=
  (raw t (pos t) mod n, mk_tape (raw t) (S (pos t)))%nat.

#[export] Instance tape_gen : RandomGen tape := {|
  randbelow := tape_randbelow;
  randbelow_lt := fun n t Hn =>
    Nat.mod_upper_bound (raw t (pos t)) n (proj2 (Nat.neq_0_lt_0 n) Hn)
|}.

(** The tape that draws [k] forever, and the tape that draws [a] for the
    first [n] draws and [b] afterwards. *)

Definition constant_tape (k : nat) : tape := mk_tape (fun _ => k) 0.

Definition switch_tape (n a b : nat) : tape :=
  mk_tape (fun i => if (i <? n)%nat then a else b) 0.

(** ** [urllib.parse.quote]

    Every byte that is not a letter, a digit, one of [_.-~] or listed in
    [safe] becomes [%XX] with two upper-case hexadecimal digits. *)

Definition always_safe : string :=
  "ABCDEFGHIJKLMNOPQRSTUVWXYZabcdefghijklmnopqrstuvwxyz0123456789_.-~".

Definition is_safe (safe : string) (c : ascii) : bool :=
  existsb (Ascii.eqb c) (list_ascii_of_string (always_safe ++ safe)).

Definition hex_digit (n : nat) : ascii :=
  nth n (list_ascii_of_string "0123456789ABCDEF") zero.

Definition quote_byte (safe : string) (c : ascii) : string :=
  if is_safe safe c
  then String c EmptyString
  else String "%"
         (String (hex_digit (nat_of_ascii c / 16))
            (String (hex_digit (nat_of_ascii c mod 16)) EmptyString)).

Fixpoint quote (safe s : string) : string :=
  match s with
  | EmptyString => EmptyString
  | String c s' => quote_byte safe c ++ quote safe s'
  end.

(** ** Integers that [sqlite3] can bind as a statement parameter *)

Definition sqlite_integer (z : Z) : bool :=
  (- 2 ^ 63 <=? z) && (z <=? 2 ^ 63 - 1).

(** * The URL shortener *)

Module ShortUrl.

(** ** The [urls] table *)

Record row : Type := mk_row {
  id : Z;               (* INTEGER PRIMARY KEY AUTOINCREMENT *)
  short_id : string;    (* TEXT UNIQUE NOT NULL *)
  full_url : string;    (* TEXT NOT NULL *)
  created_at : string;  (* TIMESTAMP DEFAULT CURRENT_TIMESTAMP, stored as text *)
  clicks : Z            (* INTEGER DEFAULT 0 *)
}.

(** [sqlite_sequence] is the bookkeeping of AUTOINCREMENT: the largest rowid
    ever handed out, so that the rowid of a deleted row is not used again. *)

Record database : Type := mk_db {
  urls : list row;
  sqlite_sequence : Z
}.

Definition empty_db : database := mk_db [] 0.

(** [CREATE TABLE IF NOT EXISTS]: a database file that already has the table
    is left as it is. *)

Definition init_db (file : option database) : database :=
  match file with
  | Some db => db
  | None => empty_db
  end.

(** ** SQL statements *)

(** [SELECT ... FROM urls WHERE full_url = ?] with [fetchone()] *)
Definition select_by_full_url (db : database) (u : string) : option row :=
  find (fun r => String.eqb (full_url r) u) (urls db).

(** [SELECT ... FROM urls WHERE short_id = ?] with [fetchone()] *)
Definition select_by_short_id (db : database) (sid : string) : option row :=
  find (fun r => String.eqb (short_id r) sid) (urls db).

Definition max_rowid (rows : list row) : Z :=
  fold_right (fun r m => Z.max (id r) m) 0 rows.

Definition next_rowid (db : database) : Z :=
  Z.max (max_rowid (urls db)) (sqlite_sequence db) + 1.

(** The row of [INSERT INTO urls (short_id, full_url) VALUES (?, ?)]: the
    other columns take their defaults, [now] being the value of
    CURRENT_TIMESTAMP. *)
Definition created_row (db : database) (sid u now : string) : row :=
  mk_row (next_rowid db) sid u now 0.

Definition unique_violation : exn :=
  IntegrityError "UNIQUE constraint failed: urls.short_id".

(** The [INSERT] itself, refused when the code is already in the table. *)
Definition insert_url (db : database) (sid u now : string) : outcome database :=
  match select_by_short_id db sid with
  | Some _ => Raise unique_violation
  | None =>
      Return (mk_db (urls db ++ [created_row db sid u now])%list (next_rowid db))
  end.

(** [UPDATE urls SET clicks = clicks + 1 WHERE short_id = ?]: [clicked] is
    the [SET] clause, [click] the [WHERE] clause around it. *)
Definition clicked (r : row) : row :=
  mk_row (id r) (short_id r) (full_url r) (created_at r) (clicks r + 1).

Definition click (sid : string) (r : row) : row :=
  if String.eqb (short_id r) sid then clicked r else r.

Definition update_clicks (db : database) (sid : string) : database :=
  mk_db (map (click sid) (urls db)) (sqlite_sequence db).

(** [DELETE FROM urls WHERE short_id = ?] *)
Definition delete_by_short_id (db : database) (sid : string) : database :=
  mk_db (filter (fun r => negb (String.eqb (short_id r) sid)) (urls db))
        (sqlite_sequence db).

(** [SELECT COUNT( * ) FROM urls] *)
Definition count (db : database) : nat := List.length (urls db).

(** [SELECT * FROM urls ORDER BY created_at DESC]: timestamps are text and
    compare as text.  Rows are inserted one by one into the sorted result;
    rows with equal timestamps stay in rowid order. *)
Definition newer_or_same (a b : row) : bool :=
  String.leb (created_at b) (created_at a).

Fixpoint insert_sorted (r : row) (l : list row) : list row :=
  match l with
  | [] => [r]
  | x :: l' => if newer_or_same r x then r :: l else x :: insert_sorted r l'
  end.

Definition order_by_created_at_desc (rows : list row) : list row :=
  fold_right insert_sorted [] rows.

(** ** [generate_short_id] *)

Definition ascii_lowercase : string := "abcdefghijklmnopqrstuvwxyz".
Definition ascii_uppercase : string := "ABCDEFGHIJKLMNOPQRSTUVWXYZ".
Definition ascii_letters : string := ascii_lowercase ++ ascii_uppercase.
Definition digits : string := "0123456789".
Definition characters : string := ascii_letters ++ digits.

Definition default_length : nat := 6.

Section Generator.

Context {G : Type} `{RandomGen G}.

Fixpoint generate_short_id (length : nat) (g : G) : string * G :=
  match length with
  | O => (EmptyString, g)
  | S n =>
      let (c, g1) := choice characters g in
      let (s, g2) := generate_short_id n g1 in
      (String c s, g2)
  end.

(** ** [POST /shorten] *)

Record shorten_response : Type := mk_shorten_response {
  resp_short_id : string;
  resp_short_url : string;
  resp_full_url : string;
  resp_message : option string
}.

Definition short_url_of (sid : string) : string :=
  "http://localhost:8001/" ++ sid.

Definition existing_response (r : row) (u : string) : shorten_response :=
  mk_shorten_response (short_id r) (short_url_of (short_id r)) u
    (Some "URL already exists").

Definition created_response (sid u : string) : shorten_response :=
  mk_shorten_response sid (short_url_of sid) u None.

(** The [while True] loop of [shorten_url].  [fuel] bounds the number of
    iterations the model unrolls; [None] means that the loop has not left
    within that many draws. *)
Fixpoint unique_short_id (fuel : nat) (db : database) (g : G) : option (string * G) :=
  match fuel with
  | O => None
  | S fuel' =>
      let (sid, g') := generate_short_id default_length g in
      match select_by_short_id db sid with
      | None => Some (sid, g')
      | Some _ => unique_short_id fuel' db g'
      end
  end.

(** [shorten_url], with the statements other connections commit between the
    last probe of the loop and the [INSERT] given as [others].  [u] is
    [str(url_data.url)], [now] the clock at the [INSERT]. *)
Definition shorten_url_among (others : database -> database)
    (fuel : nat) (db : database) (g : G) (now u : string)
  : option (outcome shorten_response * database * G) :=
  match select_by_full_url db u with
  | Some existing =>
      Some (Return (existing_response existing u), db, g)
  | None =>
      match unique_short_id fuel db g with
      | None => None
      | Some (sid, g') =>
          match insert_url (others db) sid u now with
          | Raise e => Some (Raise e, others db, g')
          | Return db' =>
              Some (Return (created_response sid u), db', g')
          end
      end
  end.

(** One request handled with no other connection writing meanwhile. *)
Definition shorten_url : nat -> database -> G -> string -> string ->
    option (outcome shorten_response * database * G) :=
  shorten_url_among (fun db => db).

End Generator.

(** ** [GET /all] *)

Definition get_all_urls (db : database) : list row :=
  order_by_created_at_desc (urls db).

(** Descending order of the timestamps, as a relation on rows. *)
Definition newer_first (a b : row) : Prop :=
  String.leb (created_at b) (created_at a) = true.

(** ** [GET /stats/{short_id}] *)

Definition not_found : exn := HTTPException 404 "Short URL not found".

Record stats_response : Type := mk_stats_response {
  stats_short_id : string;
  stats_full_url : string;
  stats_created_at : string;
  stats_clicks : Z
}.

Definition get_stats (db : database) (sid : string) : outcome stats_response :=
  match select_by_short_id db sid with
  | None => Raise not_found
  | Some result =>
      Return (mk_stats_response (short_id result) (full_url result)
                (created_at result) (clicks result))
  end.

(** ** [DELETE /delete/{short_id}] *)

Definition delete_url (db : database) (sid : string) : outcome string * database :=
  match select_by_short_id db sid with
  | None => (Raise not_found, db)
  | Some _ => (Return "URL deleted successfully", delete_by_short_id db sid)
  end.

(** ** [GET /{short_id}]

    [RedirectResponse(url=...)] is a response with status 307 whose
    [Location] header is the URL quoted with the safe characters below.  The
    count read back after the commit is only printed, but subscripting a
    missing row would raise. *)

Record redirect_response : Type := mk_redirect_response {
  status_code : Z;
  location : string
}.

Definition redirect_safe : string := ":/%#?=@[]!$&'()*+,;".

Definition RedirectResponse (url : string) : redirect_response :=
  mk_redirect_response 307 (quote redirect_safe url).

(** A URL that the quoting leaves as it is. *)
Definition url_safe (url : string) : bool :=
  forallb (is_safe redirect_safe) (list_ascii_of_string url).

Definition redirect_to_url (db : database) (sid : string)
  : outcome redirect_response * database :=
  match select_by_short_id db sid with
  | None => (Raise not_found, db)
  | Some result =>
      let db' := update_clicks db sid in
      match select_by_short_id db' sid with
      | None => (Raise TypeError, db')
      | Some _ => (Return (RedirectResponse (full_url result)), db')
      end
  end.

(** ** [GET /] *)

Definition root : string := "URL Shortener Service is running!".

(** ** Well-formed codes

    The 62 symbols by their character codes: [a-z], [A-Z], [0-9]. *)

Definition alphanumeric (c : ascii) : bool :=
  let n := nat_of_ascii c in
  (((97 <=? n) && (n <=? 122))
   || ((65 <=? n) && (n <=? 90))
   || ((48 <=? n) && (n <=? 57)))%nat.

Definition well_formed_code (s : string) : bool :=
  (String.length s =? default_length)%nat
  && forallb alphanumeric (list_ascii_of_string s).

(** ** The successive candidates of the generation loop *)

Section Candidates.

Context {G : Type} `{RandomGen G}.

Definition candidate (g : G) : string := fst (generate_short_id default_length g).
Definition after_candidate (g : G) : G := snd (generate_short_id default_length g).



End Candidates.

Definition taken (db : database) (sid : string) : bool :=
  match select_by_short_id db sid with
  | Some _ => true
  | None => false
  end.

(** ** Requests, and the states a sequence of requests leads to *)

Inductive request : Type :=
| Shorten (u now : string)
| GetAll
| GetStats (sid : string)
| Delete (sid : string)
| Redirect (sid : string).

Section Service.

Variable G : Type.
Context `{RandomGen G}.

Inductive step : request -> database -> database -> Prop :=
| step_shorten : forall fuel (g g' : G) u now out db db',
    shorten_url fuel db g now u = Some (out, db', g') ->
    step (Shorten u now) db db'
| step_get_all : forall db, step GetAll db db
| step_get_stats : forall sid db, step (GetStats sid) db db
| step_delete : forall sid db, step (Delete sid) db (snd (delete_url db sid))
| step_redirect : forall sid db, step (Redirect sid) db (snd (redirect_to_url db sid)).

Inductive run : database -> list request -> database -> Prop :=
| run_nil : forall db, run db [] db
| run_snoc : forall db rqs db1 rq db2,
    run db rqs db1 -> step rq db1 db2 -> run db (rqs ++ [rq])%list db2.

Definition reachable (db : database) : Prop :=
  exists rqs, run empty_db rqs db.

End Service.

Arguments step G {_} _ _ _.
Arguments run G {_} _ _ _.
Arguments reachable G {_} _.

(** The database a request leaves is the one it found, or the one written by
    its single [UPDATE], [DELETE] or [INSERT]. *)
Inductive written (db : database) : request -> database -> Prop :=
| written_nothing : forall rq, written db rq db
| written_update : forall sid, written db (Redirect sid) (update_clicks db sid)
| written_delete : forall sid, written db (Delete sid) (delete_by_short_id db sid)
| written_insert : forall sid u now,
    select_by_short_id db sid = None ->
    written db (Shorten u now)
      (mk_db (urls db ++ [created_row db sid u now])%list (next_rowid db)).

(** ** A concurrent writer

    The statements another connection commits while [shorten_url] is between
    its last probe and its [INSERT]: here, the insertion of a row for some
    other URL under the code ["aaaaaa"]. *)

Definition concurrent_insert (db : database) : database :=
  match insert_url db "aaaaaa" "https://example.com/other" "2024-01-01 00:00:00" with
  | Return db' => db'
  | Raise _ => db
  end.

(** The six characters a tape yields from position [p] on. *)



(** ** What the schema maintains *)

Definition unique_codes (db : database) : Prop :=
  NoDup (map short_id (urls db)).

Definition rowids_ok (db : database) : Prop :=
  NoDup (map id (urls db))
  /\ Forall (fun r => id r <= sqlite_sequence db) (urls db).

Definition clicks_nonneg (db : database) : Prop :=
  Forall (fun r => 0 <= clicks r) (urls db).

Definition consistent (db : database) : Prop :=
  unique_codes db /\ rowids_ok db /\ clicks_nonneg db.

(** ** A small database for examples *)

Definition example_row : row :=
  mk_row 1 "aaaaaa" "https://example.com/a" "2024-01-01 00:00:00" 0.

Definition example_db : database := mk_db [example_row] 1.

Definition example_row2 : row :=
  mk_row 2 "bbbbbb" "https://example.com/b" "2024-01-01 00:00:05" 0.

Definition example_db2 : database := mk_db [example_row; example_row2] 2.

(** A link whose URL has characters that the redirect quotes. *)
Definition example_row3 : row :=
  mk_row 1 "aaaaaa" "https://example.com/a|b?q={x}" "2024-01-01 00:00:00" 0.

Definition example_db3 : database := mk_db [example_row3] 1.

Definition example_requests : list request :=
  (([] ++ [Shorten "https://example.com/a" "2024-01-01 00:00:00"])
      ++ [Shorten "https://example.com/b" "2024-01-01 00:00:05"])%list.

(** ** The startup report of [lifespan]

    [SELECT COUNT( * )] and [SELECT SUM(clicks)] on the initialised database;
    [SUM] over an empty table is NULL, which [or 0] turns into 0 (as it does
    a sum that is 0). *)

Definition total_clicks (rows : list row) : Z :=
  fold_right (fun r t => clicks r + t) 0 rows.

Definition sum_clicks (db : database) : option Z :=
  match urls db with
  | [] => None
  | rows => Some (total_clicks rows)
  end.

Definition or_zero (x : option Z) : Z :=
  match x with
  | Some t => if t =? 0 then 0 else t
  | None => 0
  end.

Definition lifespan (file : option database) : database * (nat * Z) :=
  let db := init_db file in
  (db, (count db, or_zero (sum_clicks db))).

(** ** Further notions used to state properties *)

(** No two rows for the same URL. *)
Definition unique_urls (db : database) : Prop :=
  NoDup (map full_url (urls db)).

(** [n] redirect requests for the same code, one after the other. *)
Fixpoint redirect_times (n : nat) (db : database) (sid : string) : database :=
  match n with
  | O => db
  | S n' => redirect_times n' (snd (redirect_to_url db sid)) sid
  end.

(** Another connection that shortens ["https://example.com/a"] itself, under
    the code ["zzzzzz"], while [shorten_url] is between probe and [INSERT]. *)
Definition concurrent_same_url (db : database) : database :=
  match insert_url db "zzzzzz" "https://example.com/a" "2024-01-01 00:00:00" with
  | Return db' => db'
  | Raise _ => db
  end.

Definition is_shorten (rq : request) : bool :=
  match rq with Shorten _ _ => true | _ => false end.

Definition is_redirect (rq : request) : bool :=
  match rq with Redirect _ => true | _ => false end.

End ShortUrl.

(** * The to-do service *)

Module Todo.

(** ** Request bodies *)

Module TaskCreate.
Record t : Type := mk {
  title : string;
  description : option string;   (* Optional[str] = None *)
  completed : bool               (* bool = False *)
}.
End TaskCreate.

Module TaskUpdate.
Record t : Type := mk {
  title : option string;
  description : option string;
  completed : option bool
}.
End TaskUpdate.

(** ** The [tasks] table *)

Record row : Type := mk_row {
  id : Z;                        (* INTEGER PRIMARY KEY AUTOINCREMENT *)
  title : string;                (* TEXT NOT NULL *)
  description : option string;   (* TEXT *)
  completed : bool               (* BOOLEAN NOT NULL DEFAULT 0 *)
}.

Record database : Type := mk_db {
  tasks : list row;
  sqlite_sequence : Z
}.

Definition empty_db : database := mk_db [] 0.

Definition init_db (file : option database) : database :=
  match file with
  | Some db => db
  | None => empty_db
  end.

(** ** SQL statements *)

(** [SELECT * FROM tasks WHERE id = ?] with [fetchone()] *)
Definition select_by_id (db : database) (item_id : Z) : option row :=
  find (fun r => id r =? item_id) (tasks db).

Definition max_rowid (rows : list row) : Z :=
  fold_right (fun r m => Z.max (id r) m) 0 rows.

Definition next_rowid (db : database) : Z :=
  Z.max (max_rowid (tasks db)) (sqlite_sequence db) + 1.

(** [INSERT INTO tasks (title, description, completed) VALUES (?, ?, ?)];
    the first component is [cursor.lastrowid]. *)
Definition insert_task (db : database) (task : TaskCreate.t) : Z * database :=
  let rid := next_rowid db in
  (rid,
   mk_db (tasks db ++ [mk_row rid (TaskCreate.title task)
                         (TaskCreate.description task)
                         (TaskCreate.completed task)])%list rid).

(** One ["column = ?"] of the [SET] clause together with its value. *)
Inductive assignment : Type :=
| set_title (v : string)
| set_description (v : string)
| set_completed (v : bool).

Definition assign (r : row) (a : assignment) : row :=
  match a with
  | set_title v => mk_row (id r) v (description r) (completed r)
  | set_description v => mk_row (id r) (title r) (Some v) (completed r)
  | set_completed v => mk_row (id r) (title r) (description r) v
  end.

(** [UPDATE tasks SET ... WHERE id = ?] *)
Definition update_by_id (db : database) (sets : list assignment) (item_id : Z)
  : database :=
  mk_db (map (fun r => if id r =? item_id then fold_left assign sets r else r)
             (tasks db))
        (sqlite_sequence db).

(** [DELETE FROM tasks WHERE id = ?] *)
Definition delete_by_id (db : database) (item_id : Z) : database :=
  mk_db (filter (fun r => negb (id r =? item_id)) (tasks db))
        (sqlite_sequence db).

(** ** Handlers *)

Definition not_found : exn := HTTPException 404 "Task not found".

(** How a lookup by id fails.  [cursor.execute] binds [item_id] before the
    table is read, and raises [OverflowError] when [item_id] is outside the
    signed 64-bit range.  A rowid never is, so a lookup that raises this way
    is one for which the table has no row; the handlers decide on the row
    and tell the two failures apart when there is none.  An id in range that
    no row has is answered with the 404. *)
Definition no_task (item_id : Z) : exn :=
  if sqlite_integer item_id then not_found else OverflowError.

(** [POST /items] *)
Definition create_task (db : database) (task : TaskCreate.t) : row * database :=
  let (task_id, db') := insert_task db task in
  (mk_row task_id (TaskCreate.title task) (TaskCreate.description task)
     (TaskCreate.completed task),
   db').

(** [GET /items] *)
Definition get_all_tasks (db : database) : list row := tasks db.

(** [GET /items/{item_id}] *)
Definition get_task (db : database) (item_id : Z) : outcome row :=
  match select_by_id db item_id with
  | None => Raise (no_task item_id)
  | Some task => Return task
  end.

(** [PUT /items/{item_id}]: the three [if ... is not None] blocks collect the
    assignments; [dict(updated_task)] raises when the row read back is
    missing. *)
Definition update_fields (task : TaskUpdate.t) : list assignment :=
  (match TaskUpdate.title task with Some v => [set_title v] | None => [] end
   ++ match TaskUpdate.description task with
      | Some v => [set_description v]
      | None => []
      end
   ++ match TaskUpdate.completed task with
      | Some v => [set_completed v]
      | None => []
      end)%list.

Definition update_task (db : database) (item_id : Z) (task : TaskUpdate.t)
  : outcome row * database :=
  match select_by_id db item_id with
  | None => (Raise (no_task item_id), db)
  | Some existing_task =>
      let db' :=
        match update_fields task with
        | [] => db
        | sets => update_by_id db sets item_id
        end in
      match select_by_id db' item_id with
      | None => (Raise TypeError, db')
      | Some updated_task => (Return updated_task, db')
      end
  end.

(** [DELETE /items/{item_id}] *)
Definition delete_task (db : database) (item_id : Z) : outcome string * database :=
  match select_by_id db item_id with
  | None => (Raise (no_task item_id), db)
  | Some _ => (Return "Task deleted successfully", delete_by_id db item_id)
  end.

(** [GET /] *)
Definition root : string := "ToDo Service is running!".

(** ** Partial update, as the specification words it

    Each field present in the body replaces the stored value; an omitted
    field keeps it; the id is not touched. *)

Definition partial_update (r : row) (body : TaskUpdate.t) : row :=
  mk_row (id r)
    (match TaskUpdate.title body with Some v => v | None => title r end)
    (match TaskUpdate.description body with
     | Some v => Some v
     | None => description r
     end)
    (match TaskUpdate.completed body with Some v => v | None => completed r end).

(** ** What the schema maintains: the primary key *)

Definition unique_ids (db : database) : Prop :=
  NoDup (map id (tasks db)).

(** ** A small database for examples *)

Definition example_task1 : row := mk_row 1 "write report" None false.
Definition example_task2 : row := mk_row 2 "buy milk" (Some "two litres") false.
Definition example_db : database := mk_db [example_task1; example_task2] 2.

Definition example_body : TaskUpdate.t :=
  TaskUpdate.mk None None (Some true).

(** The rowids are signed 64-bit integers, as SQLite stores them. *)
Definition rowids_64bit (db : database) : Prop :=
  Forall (fun r => sqlite_integer (id r) = true) (tasks db).

(** The rowids are unique, positive and not above the AUTOINCREMENT
    counter. *)
Definition rowids_ok (db : database) : Prop :=
  NoDup (map id (tasks db))
  /\ Forall (fun r => 0 < id r <= sqlite_sequence db) (tasks db).

(** The table after a partial update of the tasks with a given id. *)
Definition updated_rows (item_id : Z) (body : TaskUpdate.t) (rows : list row)
  : list row :=
  map (fun r => if id r =? item_id then partial_update r body else r) rows.

(** The body that names no field. *)
Definition empty_body : TaskUpdate.t := TaskUpdate.mk None None None.

(** ** Requests handled one after the other *)

Inductive request : Type :=
| Create (task : TaskCreate.t)
| GetAll
| Get (item_id : Z)
| Update (item_id : Z) (task : TaskUpdate.t)
| Delete (item_id : Z).

Definition handle (db : database) (rq : request) : database :=
  match rq with
  | Create task => snd (create_task db task)
  | Update item_id task => snd (update_task db item_id task)
  | Delete item_id => snd (delete_task db item_id)
  | GetAll | Get _ => db
  end.

Definition run (rqs : list request) (db : database) : database :=
  fold_left handle rqs db.

Definition example_create : TaskCreate.t :=
  TaskCreate.mk "call home" None false.

End Todo.

(** * Facts about lists and strings *)

Lemma find_app_fresh :
  forall (A : Type) (f : A -> bool) l x,
    find f l = None -> f x = true -> find f (l ++ [x]) = Some x.
Proof.
  induction l as [|y l IH]; simpl; intros x Hn Hx.
  - now rewrite Hx.
  - destruct (f y); [discriminate|]. auto.
Qed.

Lemma NoDup_map_filter :
  forall (A B : Type) (f : A -> B) (p : A -> bool) l,
    NoDup (map f l) -> NoDup (map f (filter p l)).
Proof.
  induction l as [|x l IH]; simpl; intros Hnd; [constructor|].
  apply NoDup_cons_iff in Hnd. destruct Hnd as [Hx Hl].
  destruct (p x); simpl; auto.
  constructor; auto. intros Hin. apply Hx.
  apply in_map_iff in Hin. destruct Hin as (y & Hy & Hin).
  apply filter_In in Hin. apply in_map_iff. exists y. tauto.
Qed.

Lemma NoDup_map_same :
  forall (A B : Type) (f : A -> B) l r1 r2,
    NoDup (map f l) -> In r1 l -> In r2 l -> f r1 = f r2 -> r1 = r2.
Proof.
  induction l as [|x l IH]; simpl; intros r1 r2 Hnd H1 H2 Heq; [contradiction|].
  apply NoDup_cons_iff in Hnd. destruct Hnd as [Hx Hl].
  destruct H1 as [->|H1], H2 as [->|H2]; auto.
  - elim Hx. rewrite Heq. now apply in_map.
  - elim Hx. rewrite <- Heq. now apply in_map.
Qed.

Lemma string_leb_trans :
  forall a b c : string,
    String.leb a b = true -> String.leb b c = true -> String.leb a c = true.
Proof.
  unfold String.leb.
  induction a as [|x a IH]; intros [|y b] [|z c]; cbn [String.compare];
    try congruence; try reflexivity.
  unfold Ascii.compare.
  destruct (N.compare_spec (N_of_ascii x) (N_of_ascii y)) as [Hxy|Hxy|Hxy];
    destruct (N.compare_spec (N_of_ascii y) (N_of_ascii z)) as [Hyz|Hyz|Hyz];
    destruct (N.compare_spec (N_of_ascii x) (N_of_ascii z)) as [Hxz|Hxz|Hxz];
    try congruence; try lia; try reflexivity.
  apply IH.
Qed.

Lemma In_existsb_ascii :
  forall c l, In c l <-> existsb (Ascii.eqb c) l = true.
Proof.
  intros c l. rewrite existsb_exists. split.
  - intros Hin. exists c. split; [exact Hin | apply Ascii.eqb_refl].
  - intros [x [Hin Heq]]. apply Ascii.eqb_eq in Heq. now subst.
Qed.

(** * The URL shortener: proofs *)

Module ShortUrlProofs.

Import ShortUrl.

(** ** Facts about the SQL statements *)

Lemma select_by_short_id_Some :
  forall db sid r,
    select_by_short_id db sid = Some r -> In r (urls db) /\ short_id r = sid.
Proof.
  unfold select_by_short_id. intros db sid r Hf.
  apply find_some in Hf. destruct Hf as [Hin Heq].
  apply String.eqb_eq in Heq. auto.
Qed.

Lemma select_by_short_id_None :
  forall db sid,
    select_by_short_id db sid = None <->
    (forall r, In r (urls db) -> short_id r <> sid).
Proof.
  unfold select_by_short_id. intros db sid. split.
  - intros Hf r Hin. apply String.eqb_neq. exact (find_none _ _ Hf r Hin).
  - intros Hno. destruct (find _ (urls db)) as [r|] eqn:Hf; [|reflexivity].
    apply find_some in Hf. destruct Hf as [Hin Heq].
    apply String.eqb_eq in Heq. elim (Hno r Hin Heq).
Qed.

Lemma select_by_full_url_Some :
  forall db u r,
    select_by_full_url db u = Some r -> In r (urls db) /\ full_url r = u.
Proof.
  unfold select_by_full_url. intros db u r Hf.
  apply find_some in Hf. destruct Hf as [Hin Heq].
  apply String.eqb_eq in Heq. auto.
Qed.

Lemma select_by_full_url_found :
  forall db u r,
    In r (urls db) -> full_url r = u ->
    exists r0, select_by_full_url db u = Some r0.
Proof.
  unfold select_by_full_url. intros db u r Hin Hu.
  destruct (find _ (urls db)) as [r0|] eqn:Hf; [eauto|].
  pose proof (find_none _ _ Hf r Hin) as Hneq. simpl in Hneq.
  apply String.eqb_neq in Hneq. contradiction.
Qed.

Section Facts.
Context {G : Type} `{RandomGen G}.

Lemma unique_short_id_probe :
  forall fuel db (g : G) sid g',
    unique_short_id fuel db g = Some (sid, g') ->
    select_by_short_id db sid = None.
Proof.
  induction fuel as [|fuel IH]; cbn [unique_short_id]; intros db g sid g' Hu;
    [discriminate|].
  destruct (generate_short_id default_length g) as [c g1] eqn:Hg.
  destruct (select_by_short_id db c) eqn:Hs.
  - exact (IH _ _ _ _ Hu).
  - inversion Hu; subst. exact Hs.
Qed.

Lemma unique_short_id_generated :
  forall fuel db (g : G) sid g',
    unique_short_id fuel db g = Some (sid, g') ->
    exists g0, sid = candidate g0.
Proof.
  induction fuel as [|fuel IH]; cbn [unique_short_id]; intros db g sid g' Hu;
    [discriminate|].
  destruct (generate_short_id default_length g) as [c g1] eqn:Hg.
  destruct (select_by_short_id db c).
  - exact (IH _ _ _ _ Hu).
  - inversion Hu; subst. exists g. unfold candidate. now rewrite Hg.
Qed.

(** ** The alphabet *)

Lemma characters_alphanumeric :
  forall c, In c (list_ascii_of_string characters) <-> alphanumeric c = true.
Proof.
  intros c. rewrite In_existsb_ascii.
  assert (Hb : existsb (Ascii.eqb c) (list_ascii_of_string characters)
               = alphanumeric c).
  { destruct c as [b0 b1 b2 b3 b4 b5 b6 b7].
    destruct b0, b1, b2, b3, b4, b5, b6, b7; vm_compute; reflexivity. }
  rewrite Hb. tauto.
Qed.

Lemma choice_characters :
  forall g : G, alphanumeric (fst (choice characters g)) = true.
Proof.
  intros g. apply characters_alphanumeric. unfold choice.
  pose proof (randbelow_lt (String.length characters) g) as Hlt.
  destruct (randbelow (String.length characters) g) as [i g1].
  cbn [fst] in *. apply nth_In.
  change (List.length (list_ascii_of_string characters)) with 62%nat.
  change (String.length characters) with 62%nat in Hlt. lia.
Qed.

Lemma generate_short_id_length :
  forall n (g : G), String.length (fst (generate_short_id n g)) = n.
Proof.
  induction n as [|n IH]; intros g; cbn [generate_short_id]; [reflexivity|].
  destruct (choice characters g) as [c g1].
  specialize (IH g1). destruct (generate_short_id n g1) as [s g2].
  cbn [fst String.length] in *. now rewrite IH.
Qed.

Lemma generate_short_id_alphanumeric :
  forall n (g : G),
    forallb alphanumeric (list_ascii_of_string (fst (generate_short_id n g))) = true.
Proof.
  induction n as [|n IH]; intros g; cbn [generate_short_id]; [reflexivity|].
  pose proof (choice_characters g) as Hc.
  destruct (choice characters g) as [c g1].
  specialize (IH g1). destruct (generate_short_id n g1) as [s g2].
  cbn [fst list_ascii_of_string forallb] in *. now rewrite Hc, IH.
Qed.

Lemma candidate_well_formed :
  forall g : G, well_formed_code (candidate g) = true.
Proof.
  intros g. unfold well_formed_code, candidate.
  rewrite generate_short_id_length, generate_short_id_alphanumeric.
  now rewrite Nat.eqb_refl.
Qed.

End Facts.

(** C7.  The alphabet has 62 symbols, exactly the ASCII letters and digits;
    every code that [generate_short_id] produces with the default length has
    6 characters, all of them from the alphabet; and so has every code that
    [shorten_url] answers for a URL it did not know (the answer without a
    message). *)
Theorem generated_code_well_formed :
  forall (G : Type) (RG : RandomGen G) (g : G),
    String.length characters = 62%nat
    /\ (forall c, In c (list_ascii_of_string characters) <-> alphanumeric c = true)
    /\ String.length (fst (generate_short_id default_length g)) = 6%nat
    /\ well_formed_code (fst (generate_short_id default_length g)) = true
    /\ (forall others fuel db now u r db' g',
          shorten_url_among others fuel db g now u = Some (Return r, db', g') ->
          resp_message r = None ->
          well_formed_code (resp_short_id r) = true).
Proof.
  intros G RG g. split; [reflexivity|]. split; [exact characters_alphanumeric|].
  split; [apply generate_short_id_length|].
  split; [apply candidate_well_formed|].
  intros others fuel db now u r db' g' Hs Hm.
  unfold shorten_url_among in Hs.
  destruct (select_by_full_url db u) as [ex|].
  - inversion Hs; subst. discriminate Hm.
  - destruct (unique_short_id fuel db g) as [[sid g1]|] eqn:Hu; [|discriminate].
    destruct (unique_short_id_generated _ _ _ _ _ Hu) as [g0 ->].
    destruct (insert_url (others db) (candidate g0) u now); inversion Hs; subst.
    cbn [resp_short_id]. apply candidate_well_formed.
Qed.

Lemma generated_code_well_formed_witness :
  well_formed_code "aaaaaa" = true.
Proof.
  destruct (generated_code_well_formed tape tape_gen (constant_tape 0))
    as (_ & _ & _ & _ & Hfresh).
  apply (Hfresh (fun db => db) 1%nat empty_db "2024-01-01 00:00:00"
           "https://example.com/a"
           (mk_shorten_response "aaaaaa" "http://localhost:8001/aaaaaa"
              "https://example.com/a" None)
           (mk_db [mk_row 1 "aaaaaa" "https://example.com/a"
                     "2024-01-01 00:00:00" 0] 1)
           (mk_tape (fun _ => 0%nat) 6)).
  - reflexivity.
  - reflexivity.
Defined.

(** ** [shorten_url]: the two paths *)

Section Paths.
Context {G : Type} `{RandomGen G}.

Lemma shorten_url_known :
  forall others fuel db (g : G) now u r,
    select_by_full_url db u = Some r ->
    shorten_url_among others fuel db g now u
    = Some (Return (existing_response r u), db, g).
Proof.
  intros others fuel db g now u r Hsel.
  unfold shorten_url_among. now rewrite Hsel.
Qed.

Lemma insert_url_fresh :
  forall db sid u now,
    select_by_short_id db sid = None ->
    insert_url db sid u now
    = Return (mk_db (urls db ++ [created_row db sid u now])%list (next_rowid db)).
Proof.
  intros db sid u now Hsel. unfold insert_url. now rewrite Hsel.
Qed.

Lemma insert_url_taken :
  forall db sid u now r,
    select_by_short_id db sid = Some r ->
    insert_url db sid u now = Raise unique_violation.
Proof.
  intros db sid u now r Hsel. unfold insert_url. now rewrite Hsel.
Qed.

Lemma shorten_url_fresh :
  forall fuel db (g : G) now u out db' g',
    select_by_full_url db u = None ->
    shorten_url fuel db g now u = Some (out, db', g') ->
    exists sid,
      unique_short_id fuel db g = Some (sid, g')
      /\ out = Return (created_response sid u)
      /\ db' = mk_db (urls db ++ [created_row db sid u now])%list (next_rowid db).
Proof.
  intros fuel db g now u out db' g' Hsel Hs.
  unfold shorten_url, shorten_url_among in Hs. rewrite Hsel in Hs.
  destruct (unique_short_id fuel db g) as [[sid g1]|] eqn:Hu; [|discriminate].
  rewrite (insert_url_fresh _ _ _ _ (unique_short_id_probe _ _ _ _ _ Hu)) in Hs.
  inversion Hs; subst. exists sid. auto.
Qed.

End Paths.

(** C1.  After [shorten_url] has answered for [u], a second call for [u] on
    the database the first one left answers with the same code, leaves that
    database as it is and draws nothing; and whenever a row with
    [full_url = u] exists, the call answers at once (whatever the fuel, the
    generator and concurrent writers) with the code of such a row and
    changes nothing. *)
Theorem shorten_url_idempotent :
  forall (G : Type) (RG : RandomGen G),
    (forall fuel db (g : G) now u r db1 g1,
        shorten_url fuel db g now u = Some (Return r, db1, g1) ->
        forall fuel2 (g2 : G) now2,
        exists r2,
          shorten_url fuel2 db1 g2 now2 u = Some (Return r2, db1, g2)
          /\ resp_short_id r2 = resp_short_id r)
    /\ (forall db u r0,
          In r0 (urls db) -> full_url r0 = u ->
          forall others fuel (g : G) now,
          exists r,
            In r (urls db) /\ full_url r = u
            /\ shorten_url_among others fuel db g now u
               = Some (Return (existing_response r u), db, g)).
Proof.
  intros G RG. split.
  - intros fuel db g now u r db1 g1 Hs fuel2 g2 now2.
    destruct (select_by_full_url db u) as [ex|] eqn:Hsel.
    + unfold shorten_url in Hs.
      rewrite (shorten_url_known _ _ _ _ _ _ _ Hsel) in Hs.
      inversion Hs; subst. exists (existing_response ex u).
      unfold shorten_url.
      rewrite (shorten_url_known _ _ _ _ _ _ _ Hsel). auto.
    + destruct (shorten_url_fresh _ _ _ _ _ _ _ _ Hsel Hs)
        as (sid & Hu & Hout & Hdb).
      inversion Hout; subst r. clear Hout.
      assert (Hsel1 : select_by_full_url db1 u = Some (created_row db sid u now)).
      { subst db1. unfold select_by_full_url. cbn [urls].
        apply find_app_fresh; [exact Hsel|].
        cbn [created_row full_url]. apply String.eqb_refl. }
      exists (existing_response (created_row db sid u now) u).
      unfold shorten_url.
      rewrite (shorten_url_known _ _ _ _ _ _ _ Hsel1). auto.
  - intros db u r0 Hin Hu others fuel g now.
    destruct (select_by_full_url_found _ _ _ Hin Hu) as [r Hsel].
    exists r. destruct (select_by_full_url_Some _ _ _ Hsel) as [Hr Hur].
    repeat split; try assumption.
    now apply shorten_url_known.
Qed.

Lemma shorten_url_idempotent_witness :
  (exists r2,
      shorten_url 0 example_db (constant_tape 7) "2024-01-02 00:00:00"
        "https://example.com/a"
      = Some (Return r2, example_db, constant_tape 7)
      /\ resp_short_id r2 = "aaaaaa")
  /\ (exists r,
        In r (urls example_db) /\ full_url r = "https://example.com/a"
        /\ shorten_url_among (fun db => db) 0 example_db (constant_tape 7)
             "2024-01-02 00:00:00" "https://example.com/a"
           = Some (Return (existing_response r "https://example.com/a"),
                   example_db, constant_tape 7)).
Proof.
  destruct (shorten_url_idempotent tape tape_gen) as [Htwice Hknown]. split.
  - apply (Htwice 1%nat empty_db (constant_tape 0) "2024-01-01 00:00:00"
             "https://example.com/a"
             (created_response "aaaaaa" "https://example.com/a")
             example_db (mk_tape (fun _ => 0%nat) 6)).
    reflexivity.
  - apply (Hknown example_db "https://example.com/a" example_row).
    + simpl. left. reflexivity.
    + reflexivity.
Defined.

(** ** What every request preserves *)

Lemma max_rowid_ge :
  forall rows r, In r rows -> id r <= max_rowid rows.
Proof.
  induction rows as [|x rows IH]; simpl; intros r Hin; [contradiction|].
  destruct Hin as [->|Hin]; [lia|]. specialize (IH r Hin). lia.
Qed.

Lemma click_id : forall sid r, id (click sid r) = id r.
Proof. intros sid r. unfold click. now destruct (String.eqb _ _). Qed.

Lemma click_short_id : forall sid r, short_id (click sid r) = short_id r.
Proof. intros sid r. unfold click. now destruct (String.eqb _ _). Qed.

Lemma click_clicks :
  forall sid r,
    clicks (click sid r) = if String.eqb (short_id r) sid then clicks r + 1 else clicks r.
Proof. intros sid r. unfold click. now destruct (String.eqb _ _). Qed.

Lemma map_click_id : forall sid l, map id (map (click sid) l) = map id l.
Proof.
  intros sid l. rewrite map_map. apply map_ext. intros r. apply click_id.
Qed.

Lemma map_click_short_id :
  forall sid l, map short_id (map (click sid) l) = map short_id l.
Proof.
  intros sid l. rewrite map_map. apply map_ext. intros r. apply click_short_id.
Qed.

Lemma step_written :
  forall (G : Type) (RG : RandomGen G) rq db db',
    step G rq db db' -> written db rq db'.
Proof.
  intros G RG rq db db' Hstep. destruct Hstep as [fuel g g' u now out db db' Hs| | |sid db|sid db].
  - destruct (select_by_full_url db u) as [ex|] eqn:Hsel.
    + unfold shorten_url in Hs.
      rewrite (shorten_url_known _ _ _ _ _ _ _ Hsel) in Hs.
      inversion Hs; subst. constructor.
    + destruct (shorten_url_fresh _ _ _ _ _ _ _ _ Hsel Hs)
        as (sid & Hu & _ & ->).
      constructor. exact (unique_short_id_probe _ _ _ _ _ Hu).
  - constructor.
  - constructor.
  - unfold delete_url. destruct (select_by_short_id db sid); constructor.
  - unfold redirect_to_url. destruct (select_by_short_id db sid); [|constructor].
    destruct (select_by_short_id (update_clicks db sid) sid); constructor.
Qed.

Lemma written_consistent :
  forall db rq db', written db rq db' -> consistent db -> consistent db'.
Proof.
  intros db rq db' Hw (Hcodes & (Hids & Hseq) & Hclicks).
  destruct Hw as [rq|sid|sid|sid u now Hfree].
  - repeat split; assumption.
  - unfold consistent, unique_codes, rowids_ok, clicks_nonneg, update_clicks.
    cbn [urls sqlite_sequence].
    rewrite map_click_short_id, map_click_id. repeat split; try assumption.
    + rewrite Forall_forall in *. intros r' Hin.
      apply in_map_iff in Hin. destruct Hin as (r & <- & Hin).
      rewrite click_id. auto.
    + unfold clicks_nonneg in Hclicks. rewrite Forall_forall in *.
      intros r' Hin. apply in_map_iff in Hin. destruct Hin as (r & <- & Hin).
      rewrite click_clicks. specialize (Hclicks r Hin).
      destruct (String.eqb _ _); lia.
  - unfold consistent, unique_codes, rowids_ok, clicks_nonneg, delete_by_short_id.
    cbn [urls sqlite_sequence]. unfold clicks_nonneg in Hclicks.
    repeat split; try (apply NoDup_map_filter; assumption);
      rewrite Forall_forall in *; intros r Hin; apply filter_In in Hin;
      destruct Hin as [Hin _]; auto.
  - unfold consistent, unique_codes, rowids_ok, clicks_nonneg.
    cbn [urls sqlite_sequence]. unfold clicks_nonneg in Hclicks.
    rewrite !map_app. cbn [map created_row id short_id].
    rewrite select_by_short_id_None in Hfree.
    repeat split.
    + apply NoDup_app; [assumption|repeat constructor; intros []|].
      intros a Ha [<-|[]]. apply in_map_iff in Ha.
      destruct Ha as (r & Hr & Hin). exact (Hfree r Hin Hr).
    + apply NoDup_app; [assumption|repeat constructor; intros []|].
      intros a Ha [<-|[]]. apply in_map_iff in Ha.
      destruct Ha as (r & Hr & Hin).
      pose proof (max_rowid_ge _ _ Hin) as Hmax. unfold next_rowid in Hr. lia.
    + apply Forall_app. split.
      * rewrite Forall_forall in *. intros r Hin.
        pose proof (max_rowid_ge _ _ Hin). unfold next_rowid. lia.
      * constructor; [|constructor]. cbn [id created_row]. lia.
    + apply Forall_app. split; [assumption|].
      constructor; [|constructor]. cbn [clicks created_row]. lia.
Qed.

Lemma empty_db_consistent : consistent empty_db.
Proof.
  unfold consistent, unique_codes, rowids_ok, clicks_nonneg. simpl.
  repeat split; constructor.
Qed.

Lemma run_consistent :
  forall (G : Type) (RG : RandomGen G) db rqs db',
    run G db rqs db' -> consistent db -> consistent db'.
Proof.
  intros G RG db rqs db' Hrun. induction Hrun as [db|db rqs db1 rq db2 Hrun IH Hstep].
  - auto.
  - intros Hc. eapply written_consistent; [exact (step_written G RG _ _ _ Hstep)|auto].
Qed.

Lemma reachable_consistent :
  forall (G : Type) (RG : RandomGen G) db, reachable G db -> consistent db.
Proof.
  intros G RG db [rqs Hrun].
  exact (run_consistent G RG _ _ _ Hrun empty_db_consistent).
Qed.

(** The example database is reached by two [shorten_url] requests; the
    second one draws the taken code first and has to draw again. *)
Ltac example_reachable :=
  exists example_requests; unfold example_requests;
  apply (run_snoc tape _ _ example_db);
  [ apply (run_snoc tape _ [] empty_db);
    [ apply run_nil
    | apply (step_shorten tape 1%nat (constant_tape 0)
               (mk_tape (fun _ => 0%nat) 6) _ _
               (Return (created_response "aaaaaa" "https://example.com/a")));
      reflexivity ]
  | apply (step_shorten tape 2%nat (switch_tape 6 0 1)
             (mk_tape (raw (switch_tape 6 0 1)) 12) _ _
             (Return (created_response "bbbbbb" "https://example.com/b")));
    reflexivity ].

(** C2.  In every database reached from the empty one by a sequence of
    [shorten_url], [redirect_to_url], [delete_url] (and the read-only
    requests), the codes of the rows are pairwise different: two rows with
    the same [short_id] are the same row. *)
Theorem reachable_codes_unique :
  forall (G : Type) (RG : RandomGen G) db,
    reachable G db ->
    NoDup (map short_id (urls db))
    /\ (forall r1 r2,
          In r1 (urls db) -> In r2 (urls db) ->
          short_id r1 = short_id r2 -> r1 = r2).
Proof.
  intros G RG db Hreach.
  destruct (reachable_consistent G RG db Hreach) as (Hcodes & _).
  split; [exact Hcodes|].
  intros r1 r2. now apply NoDup_map_same.
Qed.

Lemma reachable_codes_unique_witness :
  NoDup (map short_id (urls example_db2))
  /\ (forall r1 r2,
        In r1 (urls example_db2) -> In r2 (urls example_db2) ->
        short_id r1 = short_id r2 -> r1 = r2).
Proof.
  apply (reachable_codes_unique tape tape_gen example_db2).
  example_reachable.
Defined.

(** ** The click counter *)

Lemma written_sequence_mono :
  forall db rq db',
    written db rq db' -> sqlite_sequence db <= sqlite_sequence db'.
Proof.
  intros db rq db' Hw. destruct Hw; cbn [sqlite_sequence update_clicks
    delete_by_short_id]; unfold next_rowid; lia.
Qed.

(** Where a row of the database after a request comes from: a row that was
    there before, as it was or, after a redirect, with its counter one
    higher; or the row the [INSERT] created. *)
Lemma written_row_origin :
  forall db rq db' r',
    written db rq db' -> In r' (urls db') ->
    (exists r,
        In r (urls db) /\ id r = id r'
        /\ (r' = r \/ (exists sid, rq = Redirect sid) /\ r' = clicked r))
    \/ (exists sid u now,
          rq = Shorten u now /\ r' = created_row db sid u now).
Proof.
  intros db rq db' r' Hw Hin. destruct Hw as [rq|sid|sid|sid u now Hfree].
  - left. exists r'. auto.
  - left. cbn [update_clicks urls] in Hin. apply in_map_iff in Hin.
    destruct Hin as (r & <- & Hin). exists r.
    split; [exact Hin|]. split; [now rewrite click_id|].
    unfold click. destruct (String.eqb (short_id r) sid); [right|left; reflexivity].
    split; [now exists sid | reflexivity].
  - left. cbn [delete_by_short_id urls] in Hin. apply filter_In in Hin.
    exists r'. tauto.
  - cbn [urls] in Hin. apply in_app_or in Hin. destruct Hin as [Hin|[<-|[]]].
    + left. exists r'. auto.
    + right. exists sid, u, now. auto.
Qed.

Lemma run_sequence_mono :
  forall (G : Type) (RG : RandomGen G) db rqs db',
    run G db rqs db' -> sqlite_sequence db <= sqlite_sequence db'.
Proof.
  intros G RG db rqs db' Hrun.
  induction Hrun as [db|db rqs db1 rq db2 Hrun IH Hstep]; [lia|].
  pose proof (written_sequence_mono _ _ _ (step_written G RG _ _ _ Hstep)). lia.
Qed.

Lemma created_rowid_new :
  forall db sid u now r,
    In r (urls db) -> id r < id (created_row db sid u now).
Proof.
  intros db sid u now r Hin. pose proof (max_rowid_ge _ _ Hin).
  cbn [id created_row]. unfold next_rowid. lia.
Qed.

Lemma written_clicks :
  forall db rq db' r r',
    consistent db -> written db rq db' ->
    In r (urls db) -> In r' (urls db') -> id r' = id r ->
    clicks r <= clicks r'
    /\ ((forall sid, rq <> Redirect sid) -> clicks r' = clicks r).
Proof.
  intros db rq db' r r' (_ & (Hids & _) & _) Hw Hr Hr' Hid.
  destruct (written_row_origin _ _ _ _ Hw Hr')
    as [(r0 & Hr0 & Hid0 & Hsame)|(sid & u & now & _ & ->)].
  - assert (r0 = r) as -> by
      (apply (NoDup_map_same _ _ id (urls db)); auto; congruence).
    destruct Hsame as [->|[[sid ->] ->]].
    + split; [lia|reflexivity].
    + split; [cbn [clicks clicked]; lia|].
      intros Hnot. elim (Hnot sid). reflexivity.
  - pose proof (created_rowid_new db sid u now r Hr). lia.
Qed.

Lemma run_clicks :
  forall (G : Type) (RG : RandomGen G) db rqs db',
    run G db rqs db' -> consistent db ->
    forall r r',
      In r (urls db) -> In r' (urls db') -> id r' = id r ->
      clicks r <= clicks r'.
Proof.
  intros G RG db rqs db' Hrun.
  induction Hrun as [db|db rqs db1 rq db2 Hrun IH Hstep];
    intros Hc r r' Hr Hr' Hid.
  - destruct Hc as (_ & (Hids & _) & _).
    assert (r' = r) as -> by (apply (NoDup_map_same _ _ id (urls db)); auto).
    lia.
  - pose proof (step_written G RG _ _ _ Hstep) as Hw.
    destruct (written_row_origin _ _ _ _ Hw Hr')
      as [(r1 & Hr1 & Hid1 & Hsame)|(sid & u & now & _ & ->)].
    + assert (clicks r <= clicks r1) by (apply IH; auto; congruence).
      destruct Hsame as [->|[_ ->]]; cbn [clicks clicked]; lia.
    + destruct Hc as (_ & (_ & Hseq) & _).
      rewrite Forall_forall in Hseq. specialize (Hseq r Hr).
      pose proof (run_sequence_mono G RG _ _ _ Hrun).
      cbn [id created_row] in Hid. unfold next_rowid in Hid. lia.
Qed.

(** C8.  (1) The row a [shorten_url] request adds has [clicks = 0], and
    every row of a reachable database has [clicks >= 0].  (2) Across one
    request, a row that is still there (same rowid) has a counter at least as
    large as before, and exactly the same unless the request is a redirect.
    (3) Across any sequence of requests, the counter of a row that is still
    there is at least as large as before. *)
Theorem clicks_monotone :
  forall (G : Type) (RG : RandomGen G) db,
    reachable G db ->
    (forall r, In r (urls db) -> 0 <= clicks r)
    /\ (forall u now db' r',
          step G (Shorten u now) db db' ->
          In r' (urls db') -> ~ In (id r') (map id (urls db)) ->
          clicks r' = 0)
    /\ (forall rq db' r r',
          step G rq db db' ->
          In r (urls db) -> In r' (urls db') -> id r' = id r ->
          clicks r <= clicks r'
          /\ ((forall sid, rq <> Redirect sid) -> clicks r' = clicks r))
    /\ (forall rqs db' r r',
          run G db rqs db' ->
          In r (urls db) -> In r' (urls db') -> id r' = id r ->
          clicks r <= clicks r').
Proof.
  intros G RG db Hreach.
  pose proof (reachable_consistent G RG db Hreach) as Hc.
  split; [|split; [|split]].
  - destruct Hc as (_ & _ & Hnn). unfold clicks_nonneg in Hnn.
    rewrite Forall_forall in Hnn. exact Hnn.
  - intros u now db' r' Hstep Hr' Hnew.
    destruct (written_row_origin _ _ _ _ (step_written G RG _ _ _ Hstep) Hr')
      as [(r & Hr & Hid & _)|(sid & u0 & now0 & _ & ->)].
    + elim Hnew. rewrite <- Hid. now apply in_map.
    + reflexivity.
  - intros rq db' r r' Hstep.
    exact (written_clicks _ _ _ r r' Hc (step_written G RG _ _ _ Hstep)).
  - intros rqs db' r r' Hrun. exact (run_clicks G RG _ _ _ Hrun Hc r r').
Qed.

Lemma clicks_monotone_witness :
  clicks example_row <= clicks (click "aaaaaa" example_row)
  /\ clicks example_row2 = clicks example_row2.
Proof.
  assert (Hreach : reachable tape example_db2) by example_reachable.
  destruct (clicks_monotone tape tape_gen example_db2 Hreach)
    as (_ & _ & Hstep & Hrun).
  split.
  - apply (Hrun ([] ++ [Redirect "aaaaaa"])%list
             (snd (redirect_to_url example_db2 "aaaaaa"))
             example_row (click "aaaaaa" example_row)).
    + apply (run_snoc tape _ [] example_db2);
        [apply run_nil | apply step_redirect].
    + simpl. left. reflexivity.
    + simpl. left. reflexivity.
    + reflexivity.
  - apply (Hstep (Delete "aaaaaa") (snd (delete_url example_db2 "aaaaaa"))
             example_row2 example_row2).
    + apply step_delete.
    + simpl. right. left. reflexivity.
    + simpl. left. reflexivity.
    + reflexivity.
    + intros sid Heq. discriminate Heq.
Defined.

(** ** [redirect_to_url] and [delete_url] *)

Lemma select_by_short_id_found :
  forall db sid r,
    In r (urls db) -> short_id r = sid ->
    exists r0, select_by_short_id db sid = Some r0.
Proof.
  intros db sid r Hin Hsid.
  destruct (select_by_short_id db sid) as [r0|] eqn:Hsel; [eauto|].
  rewrite select_by_short_id_None in Hsel. elim (Hsel r Hin Hsid).
Qed.

Lemma select_by_short_id_unique :
  forall db sid r,
    unique_codes db -> In r (urls db) -> short_id r = sid ->
    select_by_short_id db sid = Some r.
Proof.
  intros db sid r Hu Hin Hsid.
  destruct (select_by_short_id_found db sid r Hin Hsid) as [r0 Hsel].
  destruct (select_by_short_id_Some _ _ _ Hsel) as [Hin0 Hsid0].
  rewrite Hsel. f_equal.
  apply (NoDup_map_same _ _ short_id (urls db)); auto. congruence.
Qed.

Lemma select_after_update :
  forall db sid,
    select_by_short_id (update_clicks db sid) sid
    = option_map (click sid) (select_by_short_id db sid).
Proof.
  intros db sid. unfold select_by_short_id, update_clicks. cbn [urls].
  induction (urls db) as [|x l IH]; [reflexivity|].
  cbn [map find]. rewrite click_short_id.
  destruct (String.eqb (short_id x) sid); [reflexivity|exact IH].
Qed.

Lemma click_other_rows :
  forall sid l,
    (forall x, In x l -> short_id x <> sid) -> map (click sid) l = l.
Proof.
  intros sid l Hno. rewrite <- (map_id l) at 2. apply map_ext_in.
  intros x Hin. unfold click.
  destruct (String.eqb (short_id x) sid) eqn:Heq; [|reflexivity].
  apply String.eqb_eq in Heq. elim (Hno x Hin Heq).
Qed.

Lemma delete_other_rows :
  forall sid l,
    (forall x, In x l -> short_id x <> sid) ->
    filter (fun r => negb (String.eqb (short_id r) sid)) l = l.
Proof.
  intros sid l Hno. induction l as [|x l IH]; [reflexivity|].
  cbn [filter].
  assert (Hx : String.eqb (short_id x) sid = false)
    by (apply String.eqb_neq, Hno; now left).
  rewrite Hx. cbn [negb]. f_equal. apply IH.
  intros y Hy. apply Hno. now right.
Qed.

(** A table whose codes are unique splits around the row with a given code,
    and no other row has that code. *)
Lemma unique_codes_split :
  forall db r,
    unique_codes db -> In r (urls db) ->
    exists before after,
      urls db = (before ++ r :: after)%list
      /\ (forall x, In x before -> short_id x <> short_id r)
      /\ (forall x, In x after -> short_id x <> short_id r).
Proof.
  unfold unique_codes. intros db r Hu Hin.
  destruct (in_split _ _ Hin) as (before & after & Heq).
  exists before, after. split; [exact Heq|].
  rewrite Heq, map_app in Hu. cbn [map] in Hu.
  pose proof (NoDup_remove_2 _ _ _ Hu) as Hnot.
  split; intros x Hx Hsame; apply Hnot; rewrite <- Hsame;
    apply in_or_app; [left|right]; now apply in_map.
Qed.

Lemma quote_safe_same :
  forall safe s,
    forallb (is_safe safe) (list_ascii_of_string s) = true -> quote safe s = s.
Proof.
  induction s as [|c s IH]; cbn [list_ascii_of_string forallb quote];
    [reflexivity|].
  intros Hs. apply andb_prop in Hs. destruct Hs as [Hc Hs].
  unfold quote_byte. rewrite Hc. cbn [String.append]. now rewrite IH.
Qed.

Lemma list_ascii_of_string_app :
  forall a b,
    list_ascii_of_string (a ++ b)
    = (list_ascii_of_string a ++ list_ascii_of_string b)%list.
Proof.
  induction a as [|c a IH]; intros b; cbn [String.append list_ascii_of_string app];
    [reflexivity|].
  now rewrite IH.
Qed.

Lemma quote_byte_redirect_safe :
  forall c,
    forallb (is_safe redirect_safe)
      (list_ascii_of_string (quote_byte redirect_safe c)) = true.
Proof.
  intros [b0 b1 b2 b3 b4 b5 b6 b7].
  destruct b0, b1, b2, b3, b4, b5, b6, b7; vm_compute; reflexivity.
Qed.

Lemma quote_redirect_safe :
  forall s, url_safe (quote redirect_safe s) = true.
Proof.
  unfold url_safe. induction s as [|c s IH]; cbn [quote]; [reflexivity|].
  rewrite list_ascii_of_string_app, forallb_app.
  now rewrite quote_byte_redirect_safe, IH.
Qed.

(** C4, as the code has it.  [redirect_to_url] raises the 404 exactly when
    no row has the code, and then the database is unchanged.  When the row
    [r] has the code, the answer is a 307 redirect whose [Location] is
    [full_url r] percent-quoted (only letters, digits and the characters
    [_.-~:/%#?=@[]!$&'()*+,;] occur in it, and it is [full_url r] itself when
    that has no other character), and the database afterwards is the one before
    with [r] replaced, in place, by the row with the same rowid, code, URL
    and timestamp and with [clicks r + 1]: all other rows and the rowid
    bookkeeping are the same. *)
Theorem redirect_to_url_spec :
  forall db sid,
    (fst (redirect_to_url db sid) = Raise not_found
     <-> (forall r, In r (urls db) -> short_id r <> sid))
    /\ ((forall r, In r (urls db) -> short_id r <> sid) ->
        snd (redirect_to_url db sid) = db)
    /\ (forall r,
          unique_codes db -> In r (urls db) -> short_id r = sid ->
          exists before after,
            urls db = (before ++ r :: after)%list
            /\ redirect_to_url db sid
               = (Return (mk_redirect_response 307 (quote redirect_safe (full_url r))),
                  mk_db (before
                           ++ mk_row (id r) (short_id r) (full_url r)
                                (created_at r) (clicks r + 1)
                           :: after)%list
                        (sqlite_sequence db))
            /\ url_safe (quote redirect_safe (full_url r)) = true
            /\ (url_safe (full_url r) = true ->
                fst (redirect_to_url db sid)
                = Return (mk_redirect_response 307 (full_url r)))).
Proof.
  intros db sid. split; [|split].
  - unfold redirect_to_url. rewrite select_after_update.
    destruct (select_by_short_id db sid) as [r0|] eqn:Hsel.
    + cbn [option_map fst]. split; [discriminate|].
      intros Hno. destruct (select_by_short_id_Some _ _ _ Hsel) as [Hin Hsid].
      elim (Hno r0 Hin Hsid).
    + cbn [fst]. split; [|reflexivity].
      intros _. now apply select_by_short_id_None.
  - intros Hno. apply select_by_short_id_None in Hno.
    unfold redirect_to_url. now rewrite Hno.
  - intros r Hu Hin Hsid.
    destruct (unique_codes_split db r Hu Hin) as (before & after & Heq & Hb & Ha).
    exists before, after. split; [exact Heq|].
    assert (Hred : redirect_to_url db sid
                   = (Return (mk_redirect_response 307
                                (quote redirect_safe (full_url r))),
                      mk_db (before
                               ++ mk_row (id r) (short_id r) (full_url r)
                                    (created_at r) (clicks r + 1)
                               :: after)%list
                            (sqlite_sequence db))).
    { unfold redirect_to_url. rewrite select_after_update.
      rewrite (select_by_short_id_unique db sid r Hu Hin Hsid).
      cbn [option_map]. unfold RedirectResponse. f_equal.
      unfold update_clicks. f_equal.
      rewrite Heq, map_app. cbn [map]. subst sid.
      rewrite (click_other_rows _ _ Hb), (click_other_rows _ _ Ha).
      unfold click, clicked. now rewrite String.eqb_refl. }
    split; [exact Hred|]. split; [apply quote_redirect_safe|].
    intros Hsafe. rewrite Hred. cbn [fst].
    unfold url_safe in Hsafe. now rewrite (quote_safe_same _ _ Hsafe).
Qed.

Lemma redirect_to_url_spec_witness :
  snd (redirect_to_url example_db2 "zzzzzz") = example_db2
  /\ (exists before after,
         urls example_db2 = (before ++ example_row2 :: after)%list
         /\ redirect_to_url example_db2 "bbbbbb"
            = (Return (mk_redirect_response 307 "https://example.com/b"),
               mk_db (before
                        ++ mk_row 2 "bbbbbb" "https://example.com/b"
                             "2024-01-01 00:00:05" 1
                        :: after)%list 2)
         /\ fst (redirect_to_url example_db2 "bbbbbb")
            = Return (mk_redirect_response 307 "https://example.com/b"))
  /\ (exists before after,
         urls example_db3 = (before ++ example_row3 :: after)%list
         /\ redirect_to_url example_db3 "aaaaaa"
            = (Return (mk_redirect_response 307
                         "https://example.com/a%7Cb?q=%7Bx%7D"),
               mk_db (before
                        ++ mk_row 1 "aaaaaa" "https://example.com/a|b?q={x}"
                             "2024-01-01 00:00:00" 1
                        :: after)%list 1)).
Proof.
  split; [|split].
  - destruct (redirect_to_url_spec example_db2 "zzzzzz") as (_ & Hmiss & _).
    apply Hmiss. intros r [<-|[<-|[]]]; discriminate.
  - destruct (redirect_to_url_spec example_db2 "bbbbbb") as (_ & _ & Hhit).
    destruct (Hhit example_row2) as (before & after & Heq & Hred & _ & Hsafe).
    + repeat constructor; simpl; intuition discriminate.
    + simpl. right. left. reflexivity.
    + reflexivity.
    + exists before, after. split; [exact Heq|]. split; [exact Hred|].
      apply Hsafe. reflexivity.
  - destruct (redirect_to_url_spec example_db3 "aaaaaa") as (_ & _ & Hhit).
    destruct (Hhit example_row3) as (before & after & Heq & Hred & _).
    + repeat constructor; simpl; intuition.
    + simpl. left. reflexivity.
    + reflexivity.
    + exists before, after. split; [exact Heq|exact Hred].
Defined.

(** The claim as the specification has it fails: the link that
    [shorten_url] stores for [https://example.com/a|b?q={x}] redirects to a
    [Location] in which the bar and the braces are quoted, which is not the
    stored URL. *)
Lemma redirect_location_is_quoted :
  shorten_url 1 empty_db (constant_tape 0) "2024-01-01 00:00:00"
    "https://example.com/a|b?q={x}"
  = Some (Return (created_response "aaaaaa" "https://example.com/a|b?q={x}"),
          example_db3, mk_tape (fun _ => 0%nat) 6)
  /\ redirect_to_url example_db3 "aaaaaa"
     = (Return (mk_redirect_response 307 "https://example.com/a%7Cb?q=%7Bx%7D"),
        mk_db [mk_row 1 "aaaaaa" "https://example.com/a|b?q={x}"
                 "2024-01-01 00:00:00" 1] 1)
  /\ "https://example.com/a%7Cb?q=%7Bx%7D" <> full_url example_row3.
Proof.
  split; [reflexivity|]. split; [reflexivity|]. discriminate.
Qed.

(** C5.  [delete_url] raises the 404 and leaves the database unchanged when
    no row has the code.  When the row [r] has the code, the request
    succeeds and the database afterwards is the one before without [r]: all
    other rows are kept as they are.  After a successful delete a redirect
    for the same code raises the 404. *)
Theorem delete_url_spec :
  forall db sid,
    ((forall r, In r (urls db) -> short_id r <> sid) ->
     delete_url db sid = (Raise not_found, db))
    /\ (forall r,
          unique_codes db -> In r (urls db) -> short_id r = sid ->
          exists before after,
            urls db = (before ++ r :: after)%list
            /\ delete_url db sid
               = (Return "URL deleted successfully",
                  mk_db (before ++ after)%list (sqlite_sequence db)))
    /\ (forall r,
          In r (urls db) -> short_id r = sid ->
          fst (delete_url db sid) = Return "URL deleted successfully"
          /\ redirect_to_url (snd (delete_url db sid)) sid
             = (Raise not_found, snd (delete_url db sid))).
Proof.
  intros db sid. split; [|split].
  - intros Hno. apply select_by_short_id_None in Hno.
    unfold delete_url. now rewrite Hno.
  - intros r Hu Hin Hsid.
    destruct (unique_codes_split db r Hu Hin) as (before & after & Heq & Hb & Ha).
    exists before, after. split; [exact Heq|].
    unfold delete_url.
    rewrite (select_by_short_id_unique db sid r Hu Hin Hsid).
    f_equal. unfold delete_by_short_id. f_equal.
    rewrite Heq, filter_app. cbn [filter]. subst sid.
    rewrite (delete_other_rows _ _ Hb), (delete_other_rows _ _ Ha).
    now rewrite String.eqb_refl.
  - intros r Hin Hsid.
    destruct (select_by_short_id_found db sid r Hin Hsid) as [r0 Hsel].
    unfold delete_url. rewrite Hsel. cbn [fst snd]. split; [reflexivity|].
    assert (Hgone : select_by_short_id (delete_by_short_id db sid) sid = None).
    { apply select_by_short_id_None. cbn [delete_by_short_id urls].
      intros x Hx Hsame. apply filter_In in Hx. destruct Hx as [_ Hx].
      apply String.eqb_eq in Hsame. rewrite Hsame in Hx. discriminate Hx. }
    unfold redirect_to_url. now rewrite Hgone.
Qed.

Lemma delete_url_spec_witness :
  delete_url example_db2 "zzzzzz" = (Raise not_found, example_db2)
  /\ (exists before after,
         urls example_db2 = (before ++ example_row :: after)%list
         /\ delete_url example_db2 "aaaaaa"
            = (Return "URL deleted successfully", mk_db (before ++ after)%list 2))
  /\ redirect_to_url (snd (delete_url example_db2 "aaaaaa")) "aaaaaa"
     = (Raise not_found, snd (delete_url example_db2 "aaaaaa")).
Proof.
  split; [|split].
  - destruct (delete_url_spec example_db2 "zzzzzz") as (Hmiss & _).
    apply Hmiss. intros r [<-|[<-|[]]]; discriminate.
  - destruct (delete_url_spec example_db2 "aaaaaa") as (_ & Hhit & _).
    apply (Hhit example_row).
    + repeat constructor; simpl; intuition discriminate.
    + simpl. left. reflexivity.
    + reflexivity.
  - destruct (delete_url_spec example_db2 "aaaaaa") as (_ & _ & Hthen).
    apply (Hthen example_row); [simpl; left|]; reflexivity.
Defined.

(** ** [get_all_urls] *)

Lemma newer_first_trans :
  forall a b c, newer_first a b -> newer_first b c -> newer_first a c.
Proof.
  unfold newer_first. intros a b c Hab Hbc.
  exact (string_leb_trans _ _ _ Hbc Hab).
Qed.

Lemma newer_first_total :
  forall a b, newer_or_same a b = false -> newer_first b a.
Proof.
  unfold newer_or_same, newer_first. intros a b Hf.
  destruct (String.leb_total (created_at b) (created_at a)) as [Ht|Ht];
    [congruence|exact Ht].
Qed.

Lemma insert_sorted_perm :
  forall r l, Permutation (insert_sorted r l) (r :: l).
Proof.
  induction l as [|x l IH]; cbn [insert_sorted]; [apply Permutation_refl|].
  destruct (newer_or_same r x); [apply Permutation_refl|].
  apply perm_trans with (x :: r :: l); [now apply perm_skip|apply perm_swap].
Qed.

Lemma order_by_perm :
  forall l, Permutation (order_by_created_at_desc l) l.
Proof.
  induction l as [|x l IH]; cbn [order_by_created_at_desc fold_right];
    [constructor|].
  eapply perm_trans; [apply insert_sorted_perm|]. now apply perm_skip.
Qed.

Lemma insert_sorted_sorted :
  forall r l,
    StronglySorted newer_first l -> StronglySorted newer_first (insert_sorted r l).
Proof.
  induction l as [|x l IH]; cbn [insert_sorted]; intros Hs.
  - repeat constructor.
  - apply StronglySorted_inv in Hs. destruct Hs as [Hl Hx].
    destruct (newer_or_same r x) eqn:Hrx.
    + constructor; [constructor; assumption|].
      constructor; [exact Hrx|].
      rewrite Forall_forall in *. intros y Hy.
      apply newer_first_trans with x; [exact Hrx|auto].
    + constructor; [auto|].
      apply (Permutation_Forall (Permutation_sym (insert_sorted_perm r l))).
      constructor; [now apply newer_first_total|exact Hx].
Qed.

Lemma order_by_sorted :
  forall l, StronglySorted newer_first (order_by_created_at_desc l).
Proof.
  induction l as [|x l IH]; cbn [order_by_created_at_desc fold_right];
    [constructor|].
  now apply insert_sorted_sorted.
Qed.

(** C10.  [get_all_urls] answers with the rows of the table, each row as
    often as the table has it, in an order in which every row comes before
    all rows with a smaller or equal [created_at]; the request leaves the
    database as it found it. *)
Theorem get_all_urls_sorted :
  forall db,
    Permutation (get_all_urls db) (urls db)
    /\ (forall r, In r (get_all_urls db) <-> In r (urls db))
    /\ List.length (get_all_urls db) = count db
    /\ StronglySorted newer_first (get_all_urls db)
    /\ (forall (G : Type) (RG : RandomGen G) db',
          step G GetAll db db' -> db' = db).
Proof.
  intros db. pose proof (order_by_perm (urls db)) as Hperm.
  split; [exact Hperm|]. split; [|split; [|split]].
  - intros r. split; apply Permutation_in;
      [exact Hperm|apply Permutation_sym; exact Hperm].
  - exact (Permutation_length Hperm).
  - apply order_by_sorted.
  - intros G RG db' Hstep. inversion Hstep; reflexivity.
Qed.

Lemma get_all_urls_sorted_witness :
  get_all_urls example_db2 = [example_row2; example_row]
  /\ (forall db', step tape GetAll example_db2 db' -> db' = example_db2).
Proof.
  split; [reflexivity|].
  destruct (get_all_urls_sorted example_db2) as (_ & _ & _ & _ & Hsame).
  exact (Hsame tape tape_gen).
Defined.

(** ** The generation loop *)

Section Loop.
Context {G : Type} `{RandomGen G}.


Lemma unique_short_id_unfold :
  forall fuel db (g : G),
    unique_short_id (S fuel) db g
    = if taken db (candidate g)
      then unique_short_id fuel db (after_candidate g)
      else Some (candidate g, after_candidate g).
Proof.
  intros fuel db g. cbn [unique_short_id]. unfold taken, candidate, after_candidate.
  destruct (generate_short_id default_length g) as [sid g1]. cbn [fst snd].
  now destruct (select_by_short_id db sid).
Qed.



End Loop.

(** What the loop does on a tape. *)










(** ** An [INSERT] that meets a code committed meanwhile *)

(** C3, as the code has it.  When another connection has committed a row
    with the candidate code between the probe and the [INSERT], the
    [INSERT] raises the constraint violation and nothing is overwritten: the
    database is the one the other connection left.  [shorten_url] does not
    catch the exception and draws no further candidate: the request fails
    with it.  When the code is still free at the [INSERT], the row is added
    to what the other connection left and the code is answered. *)
Theorem shorten_url_insert_conflict :
  forall (G : Type) (RG : RandomGen G) others fuel db (g : G) now u sid g',
    select_by_full_url db u = None ->
    unique_short_id fuel db g = Some (sid, g') ->
    (taken (others db) sid = true ->
     shorten_url_among others fuel db g now u
     = Some (Raise unique_violation, others db, g'))
    /\ (taken (others db) sid = false ->
        shorten_url_among others fuel db g now u
        = Some (Return (created_response sid u),
                mk_db (urls (others db) ++ [created_row (others db) sid u now])%list
                      (next_rowid (others db)),
                g')).
Proof.
  intros G RG others fuel db g now u sid g' Hsel Hu.
  unfold shorten_url_among, taken. rewrite Hsel, Hu.
  destruct (select_by_short_id (others db) sid) as [r|] eqn:Hprobe.
  - split; [intros _|discriminate].
    now rewrite (insert_url_taken _ _ _ _ _ Hprobe).
  - split; [discriminate|intros _].
    now rewrite (insert_url_fresh _ _ _ _ Hprobe).
Qed.

Lemma shorten_url_insert_conflict_witness :
  shorten_url_among concurrent_insert 1 empty_db (constant_tape 0)
    "2024-01-01 00:00:01" "https://example.com/a"
  = Some (Raise unique_violation, concurrent_insert empty_db,
          mk_tape (fun _ => 0%nat) 6)
  /\ shorten_url_among concurrent_insert 1 empty_db (constant_tape 1)
       "2024-01-01 00:00:01" "https://example.com/a"
     = Some (Return (created_response "bbbbbb" "https://example.com/a"),
             mk_db (urls (concurrent_insert empty_db)
                      ++ [created_row (concurrent_insert empty_db) "bbbbbb"
                            "https://example.com/a" "2024-01-01 00:00:01"])%list
                   (next_rowid (concurrent_insert empty_db)),
             mk_tape (fun _ => 1%nat) 6).
Proof.
  split.
  - apply (shorten_url_insert_conflict tape tape_gen concurrent_insert 1%nat
             empty_db (constant_tape 0) "2024-01-01 00:00:01"
             "https://example.com/a" "aaaaaa" (mk_tape (fun _ => 0%nat) 6));
      reflexivity.
  - apply (shorten_url_insert_conflict tape tape_gen concurrent_insert 1%nat
             empty_db (constant_tape 1) "2024-01-01 00:00:01"
             "https://example.com/a" "bbbbbb" (mk_tape (fun _ => 1%nat) 6));
      reflexivity.
Defined.

(** The claim as the specification has it fails: with the code ["aaaaaa"]
    committed by another connection after the probe, the request ends with
    the exception whatever the number of iterations allowed, and answers no
    code. *)
Lemma shorten_url_does_not_retry :
  taken empty_db "aaaaaa" = false
  /\ taken (concurrent_insert empty_db) "aaaaaa" = true
  /\ (forall fuel,
        shorten_url_among concurrent_insert (S fuel) empty_db (constant_tape 0)
          "2024-01-01 00:00:01" "https://example.com/a"
        = Some (Raise unique_violation, concurrent_insert empty_db,
                mk_tape (fun _ => 0%nat) 6))
  /\ (forall fuel r db' t',
        shorten_url_among concurrent_insert fuel empty_db (constant_tape 0)
          "2024-01-01 00:00:01" "https://example.com/a"
        <> Some (Return r, db', t')).
Proof.
  assert (Hfail : forall fuel,
             shorten_url_among concurrent_insert (S fuel) empty_db (constant_tape 0)
               "2024-01-01 00:00:01" "https://example.com/a"
             = Some (Raise unique_violation, concurrent_insert empty_db,
                     mk_tape (fun _ => 0%nat) 6)).
  { intros fuel. unfold shorten_url_among.
    change (select_by_full_url empty_db "https://example.com/a") with (@None row).
    cbv iota. rewrite unique_short_id_unfold. reflexivity. }
  split; [reflexivity|]. split; [reflexivity|]. split; [exact Hfail|].
  intros [|fuel] r db' t'.
  - discriminate.
  - rewrite Hfail. discriminate.
Qed.

(** * The URL shortener: further properties *)

(** ** [get_stats] *)

Lemma get_stats_found :
  forall db sid r,
    select_by_short_id db sid = Some r ->
    get_stats db sid
    = Return (mk_stats_response (short_id r) (full_url r) (created_at r) (clicks r)).
Proof.
  intros db sid r Hsel. unfold get_stats. now rewrite Hsel.
Qed.

(** X1.  [get_stats] raises the 404 exactly when no row has the code; when
    the row [r] has it, the answer carries the code, URL, timestamp and
    counter of [r]. *)
Theorem get_stats_spec :
  forall db sid,
    (get_stats db sid = Raise not_found
     <-> (forall r, In r (urls db) -> short_id r <> sid))
    /\ (forall r,
          unique_codes db -> In r (urls db) -> short_id r = sid ->
          get_stats db sid
          = Return (mk_stats_response sid (full_url r) (created_at r) (clicks r))).
Proof.
  intros db sid. split.
  - rewrite <- select_by_short_id_None. unfold get_stats.
    destruct (select_by_short_id db sid); split; congruence.
  - intros r Hu Hin Hsid.
    rewrite (get_stats_found _ _ _ (select_by_short_id_unique db sid r Hu Hin Hsid)).
    now rewrite Hsid.
Qed.

Lemma get_stats_spec_witness :
  get_stats example_db2 "bbbbbb"
  = Return (mk_stats_response "bbbbbb" "https://example.com/b"
              "2024-01-01 00:00:05" 0).
Proof.
  destruct (get_stats_spec example_db2 "bbbbbb") as [_ Hhit].
  apply (Hhit example_row2).
  - repeat constructor; simpl; intuition discriminate.
  - simpl. right. left. reflexivity.
  - reflexivity.
Defined.

(** ** [shorten_url] followed by a lookup *)

Lemma redirect_to_url_found :
  forall db sid r,
    select_by_short_id db sid = Some r ->
    redirect_to_url db sid
    = (Return (RedirectResponse (full_url r)), update_clicks db sid).
Proof.
  intros db sid r Hsel. unfold redirect_to_url.
  now rewrite select_after_update, Hsel.
Qed.

(** X2.  The code [shorten_url] answers for [u] leads back to [u]: on the
    database the call leaves, the redirect for that code is a 307 whose
    [Location] is [u] percent-quoted, which is [u] itself when [u] has no
    character that is quoted, and the statistics of the code show [u]. *)
Theorem shorten_then_redirect :
  forall (G : Type) (RG : RandomGen G) fuel db (g : G) now u r db1 g1,
    unique_codes db ->
    shorten_url fuel db g now u = Some (Return r, db1, g1) ->
    resp_full_url r = u
    /\ fst (redirect_to_url db1 (resp_short_id r))
       = Return (mk_redirect_response 307 (quote redirect_safe u))
    /\ (url_safe u = true ->
        fst (redirect_to_url db1 (resp_short_id r))
        = Return (mk_redirect_response 307 u))
    /\ exists row,
         In row (urls db1)
         /\ get_stats db1 (resp_short_id r)
            = Return (mk_stats_response (resp_short_id r) u
                        (created_at row) (clicks row)).
Proof.
  intros G RG fuel db g now u r db1 g1 Hu Hs.
  assert (Hrow : exists row,
             select_by_short_id db1 (resp_short_id r) = Some row
             /\ short_id row = resp_short_id r
             /\ full_url row = u /\ resp_full_url r = u).
  { destruct (select_by_full_url db u) as [ex|] eqn:Hsel.
    - unfold shorten_url in Hs.
      rewrite (shorten_url_known _ _ _ _ _ _ _ Hsel) in Hs.
      inversion Hs; subst. cbn [resp_short_id resp_full_url existing_response].
      destruct (select_by_full_url_Some _ _ _ Hsel) as [Hin Hfull].
      exists ex. split; [|auto].
      now apply select_by_short_id_unique.
    - destruct (shorten_url_fresh _ _ _ _ _ _ _ _ Hsel Hs)
        as (sid & Hloop & Hout & Hdb).
      inversion Hout; subst r. clear Hout.
      cbn [resp_short_id resp_full_url created_response].
      exists (created_row db sid u now). split; [|auto].
      subst db1. unfold select_by_short_id. cbn [urls].
      apply find_app_fresh.
      + exact (unique_short_id_probe _ _ _ _ _ Hloop).
      + cbn [created_row short_id]. apply String.eqb_refl. }
  destruct Hrow as (row & Hsel & Hsid & Hfull & Hresp).
  assert (Hgo : fst (redirect_to_url db1 (resp_short_id r))
                = Return (mk_redirect_response 307 (quote redirect_safe u))).
  { rewrite (redirect_to_url_found _ _ _ Hsel). cbn [fst].
    unfold RedirectResponse. now rewrite Hfull. }
  split; [exact Hresp|]. split; [exact Hgo|]. split.
  - intros Hsafe. rewrite Hgo. unfold url_safe in Hsafe.
    now rewrite (quote_safe_same _ _ Hsafe).
  - exists row. split; [exact (proj1 (select_by_short_id_Some _ _ _ Hsel))|].
    rewrite (get_stats_found _ _ _ Hsel). now rewrite Hsid, Hfull.
Qed.

Lemma shorten_then_redirect_witness :
  fst (redirect_to_url example_db3 "aaaaaa")
  = Return (mk_redirect_response 307 "https://example.com/a%7Cb?q=%7Bx%7D")
  /\ fst (redirect_to_url example_db2 "bbbbbb")
     = Return (mk_redirect_response 307 "https://example.com/b").
Proof.
  split.
  - destruct (shorten_then_redirect tape tape_gen 1%nat empty_db
                (constant_tape 0) "2024-01-01 00:00:00"
                "https://example.com/a|b?q={x}"
                (created_response "aaaaaa" "https://example.com/a|b?q={x}")
                example_db3 (mk_tape (fun _ => 0%nat) 6))
      as (_ & Hgo & _).
    + constructor.
    + reflexivity.
    + exact Hgo.
  - destruct (shorten_then_redirect tape tape_gen 2%nat example_db
                (switch_tape 6 0 1) "2024-01-01 00:00:05" "https://example.com/b"
                (created_response "bbbbbb" "https://example.com/b")
                example_db2 (mk_tape (raw (switch_tape 6 0 1)) 12))
      as (_ & _ & Hsafe & _).
    + repeat constructor; simpl; intuition discriminate.
    + reflexivity.
    + apply Hsafe. reflexivity.
Defined.

(** X3.  Handled without a concurrent writer, [shorten_url] never ends with
    an exception: whenever the call comes back it answers a code, the reused
    one with the database untouched or a new one with exactly one row
    added. *)
Theorem shorten_url_never_raises :
  forall (G : Type) (RG : RandomGen G) fuel db (g : G) now u out db' g',
    shorten_url fuel db g now u = Some (out, db', g') ->
    (exists r,
        In r (urls db) /\ full_url r = u
        /\ out = Return (existing_response r u) /\ db' = db /\ g' = g)
    \/ (exists sid,
          taken db sid = false
          /\ out = Return (created_response sid u)
          /\ urls db' = (urls db ++ [created_row db sid u now])%list).
Proof.
  intros G RG fuel db g now u out db' g' Hs.
  destruct (select_by_full_url db u) as [ex|] eqn:Hsel.
  - left. unfold shorten_url in Hs.
    rewrite (shorten_url_known _ _ _ _ _ _ _ Hsel) in Hs.
    inversion Hs; subst. exists ex.
    destruct (select_by_full_url_Some _ _ _ Hsel). auto.
  - right. destruct (shorten_url_fresh _ _ _ _ _ _ _ _ Hsel Hs)
      as (sid & Hloop & Hout & Hdb).
    exists sid. split; [|split; [exact Hout|now subst db']].
    unfold taken. now rewrite (unique_short_id_probe _ _ _ _ _ Hloop).
Qed.

Lemma shorten_url_never_raises_witness :
  (exists r,
      In r (urls example_db) /\ full_url r = "https://example.com/b"
      /\ Return (created_response "bbbbbb" "https://example.com/b")
         = Return (existing_response r "https://example.com/b")
      /\ example_db2 = example_db
      /\ mk_tape (raw (switch_tape 6 0 1)) 12 = switch_tape 6 0 1)
  \/ (exists sid,
        taken example_db sid = false
        /\ Return (created_response "bbbbbb" "https://example.com/b")
           = Return (created_response sid "https://example.com/b")
        /\ urls example_db2
           = (urls example_db
                ++ [created_row example_db sid "https://example.com/b"
                      "2024-01-01 00:00:05"])%list).
Proof.
  apply (shorten_url_never_raises tape tape_gen 2%nat example_db
           (switch_tape 6 0 1) "2024-01-01 00:00:05" "https://example.com/b").
  reflexivity.
Defined.

(** ** One code per URL *)

Lemma click_keeps_full_url : forall sid r, full_url (click sid r) = full_url r.
Proof. intros sid r. unfold click. now destruct (String.eqb _ _). Qed.

Lemma step_unique_urls :
  forall (G : Type) (RG : RandomGen G) rq db db',
    step G rq db db' -> unique_urls db -> unique_urls db'.
Proof.
  intros G RG rq db db' Hstep Hu. unfold unique_urls in *.
  destruct Hstep as [fuel g g' u now out db db' Hs| | |sid db|sid db].
  - destruct (select_by_full_url db u) as [ex|] eqn:Hsel.
    + unfold shorten_url in Hs.
      rewrite (shorten_url_known _ _ _ _ _ _ _ Hsel) in Hs.
      inversion Hs; subst. exact Hu.
    + destruct (shorten_url_fresh _ _ _ _ _ _ _ _ Hsel Hs) as (sid & _ & _ & ->).
      cbn [urls]. rewrite map_app. cbn [map created_row full_url].
      apply NoDup_app; [exact Hu|repeat constructor; intros []|].
      intros a Ha [<-|[]]. apply in_map_iff in Ha.
      destruct Ha as (x & Hx & Hin). unfold select_by_full_url in Hsel.
      pose proof (find_none _ _ Hsel x Hin) as Hneq. cbn beta in Hneq.
      apply String.eqb_neq in Hneq. contradiction.
  - exact Hu.
  - exact Hu.
  - unfold delete_url. destruct (select_by_short_id db sid); [|exact Hu].
    cbn [snd delete_by_short_id urls]. now apply NoDup_map_filter.
  - assert (Hmap : map full_url (urls (update_clicks db sid)) = map full_url (urls db)).
    { cbn [update_clicks urls]. rewrite map_map. apply map_ext.
      intros x. apply click_keeps_full_url. }
    unfold redirect_to_url. destruct (select_by_short_id db sid); [|exact Hu].
    destruct (select_by_short_id (update_clicks db sid) sid);
      cbn [snd]; now rewrite Hmap.
Qed.

(** X4.  In every database reached from the empty one by requests handled
    one after the other, no two rows have the same URL, and two rows have
    the same URL exactly when they have the same code: codes and URLs
    correspond one to one. *)
Theorem reachable_urls_unique :
  forall (G : Type) (RG : RandomGen G) db,
    reachable G db ->
    NoDup (map full_url (urls db))
    /\ (forall r1 r2,
          In r1 (urls db) -> In r2 (urls db) ->
          (full_url r1 = full_url r2 <-> short_id r1 = short_id r2)).
Proof.
  intros G RG db Hreach.
  assert (Hurls : unique_urls db).
  { destruct Hreach as [rqs Hrun].
    assert (Hgen : forall d0 d1, run G d0 rqs d1 -> unique_urls d0 -> unique_urls d1).
    { clear. intros d0 d1 Hrun.
      induction Hrun as [d|d rqs d1 rq d2 Hrun IH Hstep]; [auto|].
      intros Hu. exact (step_unique_urls G _ _ _ _ Hstep (IH Hu)). }
    apply (Hgen _ _ Hrun). constructor. }
  destruct (reachable_consistent G RG db Hreach) as (Hcodes & _).
  split; [exact Hurls|].
  intros r1 r2 H1 H2. split; intros Heq.
  - now rewrite (NoDup_map_same _ _ full_url (urls db) r1 r2 Hurls H1 H2 Heq).
  - now rewrite (NoDup_map_same _ _ short_id (urls db) r1 r2 Hcodes H1 H2 Heq).
Qed.

Lemma reachable_urls_unique_witness :
  NoDup (map full_url (urls example_db2))
  /\ (forall r1 r2,
        In r1 (urls example_db2) -> In r2 (urls example_db2) ->
        (full_url r1 = full_url r2 <-> short_id r1 = short_id r2)).
Proof.
  apply (reachable_urls_unique tape tape_gen example_db2).
  example_reachable.
Defined.

(** ** [shorten_url] beside a concurrent writer *)

(** X5.  Whatever other connections commit between probe and [INSERT], as
    long as what they leave satisfies the schema, so does what
    [shorten_url] leaves: codes stay unique, rowids stay unique and below
    the AUTOINCREMENT counter, counters stay non-negative. *)
Theorem shorten_url_among_consistent :
  forall (G : Type) (RG : RandomGen G) others fuel db (g : G) now u out db' g',
    consistent db -> consistent (others db) ->
    shorten_url_among others fuel db g now u = Some (out, db', g') ->
    consistent db'.
Proof.
  intros G RG others fuel db g now u out db' g' Hc Hco Hs.
  unfold shorten_url_among in Hs.
  destruct (select_by_full_url db u) as [ex|].
  - inversion Hs; subst. exact Hc.
  - destruct (unique_short_id fuel db g) as [[sid g1]|]; [|discriminate].
    destruct (select_by_short_id (others db) sid) as [x|] eqn:Hprobe.
    + rewrite (insert_url_taken _ _ _ _ _ Hprobe) in Hs.
      inversion Hs; subst. exact Hco.
    + rewrite (insert_url_fresh _ _ _ _ Hprobe) in Hs.
      inversion Hs; subst.
      apply (written_consistent (others db) (Shorten u now)); [|exact Hco].
      now constructor.
Qed.

Lemma shorten_url_among_consistent_witness :
  consistent (concurrent_insert empty_db).
Proof.
  apply (shorten_url_among_consistent tape tape_gen concurrent_insert 1%nat
           empty_db (constant_tape 0) "2024-01-01 00:00:01"
           "https://example.com/a" (Raise unique_violation)
           (concurrent_insert empty_db) (mk_tape (fun _ => 0%nat) 6)).
  - unfold consistent, unique_codes, rowids_ok, clicks_nonneg. simpl.
    repeat split; constructor.
  - unfold consistent, unique_codes, rowids_ok, clicks_nonneg. simpl.
    repeat split; repeat constructor; simpl; try lia; intuition.
  - reflexivity.
Defined.

(** X6.  The reuse check and the [INSERT] are not one step: when another
    connection has committed a row for [u] after the check, and the drawn
    code is still free, [shorten_url] adds a second row for [u] under its
    own code, so that the table holds two rows with the same URL. *)
Theorem shorten_url_race_duplicates :
  forall (G : Type) (RG : RandomGen G) others fuel db (g : G) now u sid g' r,
    select_by_full_url db u = None ->
    unique_short_id fuel db g = Some (sid, g') ->
    taken (others db) sid = false ->
    In r (urls (others db)) -> full_url r = u ->
    exists db',
      shorten_url_among others fuel db g now u
      = Some (Return (created_response sid u), db', g')
      /\ In r (urls db')
      /\ In (created_row (others db) sid u now) (urls db')
      /\ short_id r <> sid
      /\ ~ unique_urls db'.
Proof.
  intros G RG others fuel db g now u sid g' r Hsel Hloop Hfree Hin Hfull.
  assert (Hprobe : select_by_short_id (others db) sid = None).
  { unfold taken in Hfree. now destruct (select_by_short_id (others db) sid). }
  assert (Hneq : short_id r <> sid).
  { rewrite select_by_short_id_None in Hprobe. now apply Hprobe. }
  eexists. split; [|split; [|split; [|split; [exact Hneq|]]]].
  - unfold shorten_url_among. rewrite Hsel, Hloop.
    rewrite (insert_url_fresh _ _ _ _ Hprobe). reflexivity.
  - cbn [urls]. apply in_or_app. now left.
  - cbn [urls]. apply in_or_app. right. now left.
  - unfold unique_urls. cbn [urls]. intros Hnd.
    apply Hneq.
    rewrite (NoDup_map_same _ _ full_url _ r (created_row (others db) sid u now) Hnd).
    + reflexivity.
    + apply in_or_app. now left.
    + apply in_or_app. right. now left.
    + exact Hfull.
Qed.

Lemma shorten_url_race_duplicates_witness :
  exists db',
    shorten_url_among concurrent_same_url 1 empty_db (constant_tape 0)
      "2024-01-01 00:00:01" "https://example.com/a"
    = Some (Return (created_response "aaaaaa" "https://example.com/a"), db',
            mk_tape (fun _ => 0%nat) 6)
    /\ In (mk_row 1 "zzzzzz" "https://example.com/a" "2024-01-01 00:00:00" 0)
          (urls db')
    /\ In (created_row (concurrent_same_url empty_db) "aaaaaa"
             "https://example.com/a" "2024-01-01 00:00:01") (urls db')
    /\ "zzzzzz" <> "aaaaaa"
    /\ ~ unique_urls db'.
Proof.
  apply (shorten_url_race_duplicates tape tape_gen concurrent_same_url 1%nat
           empty_db (constant_tape 0) "2024-01-01 00:00:01"
           "https://example.com/a" "aaaaaa" (mk_tape (fun _ => 0%nat) 6)
           (mk_row 1 "zzzzzz" "https://example.com/a" "2024-01-01 00:00:00" 0)).
  - reflexivity.
  - reflexivity.
  - reflexivity.
  - simpl. left. reflexivity.
  - reflexivity.
Defined.

(** ** Repeated redirects *)

Lemma update_clicks_row :
  forall db r,
    unique_codes db -> In r (urls db) ->
    unique_codes (update_clicks db (short_id r))
    /\ In (clicked r) (urls (update_clicks db (short_id r))).
Proof.
  intros db r Hu Hin. split.
  - unfold unique_codes, update_clicks. cbn [urls].
    now rewrite map_click_short_id.
  - cbn [update_clicks urls]. apply in_map_iff. exists r. split; [|exact Hin].
    unfold click. now rewrite String.eqb_refl.
Qed.

(** X7.  [n] redirects for a code raise its counter by [n] and change
    nothing else that the statistics show; [n] redirects for a code that no
    row has leave the database as it is. *)
Theorem redirect_times_counts :
  forall n db sid,
    (forall r,
        unique_codes db -> In r (urls db) -> short_id r = sid ->
        get_stats (redirect_times n db sid) sid
        = Return (mk_stats_response sid (full_url r) (created_at r)
                    (clicks r + Z.of_nat n)))
    /\ ((forall r, In r (urls db) -> short_id r <> sid) ->
        redirect_times n db sid = db).
Proof.
  induction n as [|n IH]; intros db sid; split.
  - intros r Hu Hin Hsid. cbn [redirect_times].
    rewrite (get_stats_found _ _ _ (select_by_short_id_unique db sid r Hu Hin Hsid)).
    rewrite Hsid. do 2 f_equal. cbn. lia.
  - reflexivity.
  - intros r Hu Hin Hsid. cbn [redirect_times].
    rewrite (redirect_to_url_found _ _ _
               (select_by_short_id_unique db sid r Hu Hin Hsid)).
    cbn [snd]. subst sid.
    destruct (update_clicks_row db r Hu Hin) as [Hu' Hin'].
    rewrite (proj1 (IH (update_clicks db (short_id r)) (short_id r))
               (clicked r) Hu' Hin' eq_refl).
    cbn [clicked full_url created_at clicks]. do 2 f_equal. lia.
  - intros Hno. cbn [redirect_times].
    assert (Hsel : select_by_short_id db sid = None)
      by now apply select_by_short_id_None.
    unfold redirect_to_url at 1. rewrite Hsel. cbn [snd].
    now apply IH.
Qed.

Lemma redirect_times_counts_witness :
  get_stats (redirect_times 3 example_db2 "aaaaaa") "aaaaaa"
  = Return (mk_stats_response "aaaaaa" "https://example.com/a"
              "2024-01-01 00:00:00" 3)
  /\ redirect_times 3 example_db2 "zzzzzz" = example_db2.
Proof.
  destruct (redirect_times_counts 3 example_db2 "aaaaaa") as [Hhit _].
  destruct (redirect_times_counts 3 example_db2 "zzzzzz") as [_ Hmiss].
  split.
  - apply (Hhit example_row).
    + repeat constructor; simpl; intuition discriminate.
    + simpl. left. reflexivity.
    + reflexivity.
  - apply Hmiss. intros r [<-|[<-|[]]]; discriminate.
Defined.

(** ** What a request leaves alone *)

Lemma redirect_to_url_answer :
  forall db sid,
    fst (redirect_to_url db sid)
    = match select_by_short_id db sid with
      | Some r => Return (RedirectResponse (full_url r))
      | None => Raise not_found
      end.
Proof.
  intros db sid. unfold redirect_to_url. rewrite select_after_update.
  now destruct (select_by_short_id db sid).
Qed.

Lemma select_update_other :
  forall db sid sid',
    sid' <> sid ->
    select_by_short_id (update_clicks db sid) sid' = select_by_short_id db sid'.
Proof.
  intros db sid sid' Hneq. unfold select_by_short_id, update_clicks. cbn [urls].
  induction (urls db) as [|x l IH]; [reflexivity|].
  cbn [map find]. rewrite click_short_id.
  destruct (String.eqb (short_id x) sid') eqn:Hx; [|exact IH].
  apply String.eqb_eq in Hx. unfold click.
  assert (Hs : String.eqb (short_id x) sid = false)
    by (apply String.eqb_neq; congruence).
  now rewrite Hs.
Qed.

Lemma select_delete_other :
  forall db sid sid',
    sid' <> sid ->
    select_by_short_id (delete_by_short_id db sid) sid' = select_by_short_id db sid'.
Proof.
  intros db sid sid' Hneq. unfold select_by_short_id, delete_by_short_id.
  cbn [urls]. induction (urls db) as [|x l IH]; [reflexivity|].
  cbn [filter find].
  destruct (String.eqb (short_id x) sid) eqn:Hs; cbn [negb].
  - apply String.eqb_eq in Hs.
    assert (Hx : String.eqb (short_id x) sid' = false)
      by (apply String.eqb_neq; congruence).
    now rewrite Hx.
  - cbn [find]. now rewrite IH.
Qed.

Lemma select_after_redirect_other :
  forall db sid sid',
    sid' <> sid ->
    select_by_short_id (snd (redirect_to_url db sid)) sid'
    = select_by_short_id db sid'.
Proof.
  intros db sid sid' Hneq. unfold redirect_to_url.
  destruct (select_by_short_id db sid); [|reflexivity].
  destruct (select_by_short_id (update_clicks db sid) sid); cbn [snd];
    now apply select_update_other.
Qed.

Lemma select_after_delete_other :
  forall db sid sid',
    sid' <> sid ->
    select_by_short_id (snd (delete_url db sid)) sid'
    = select_by_short_id db sid'.
Proof.
  intros db sid sid' Hneq. unfold delete_url.
  destruct (select_by_short_id db sid); [|reflexivity].
  cbn [snd]. now apply select_delete_other.
Qed.

(** X8.  A redirect or a delete for one code leaves every other code as it
    was: its statistics and the target of its redirect are the same before
    and after. *)
Theorem other_codes_untouched :
  forall db sid sid',
    sid' <> sid ->
    get_stats (snd (redirect_to_url db sid)) sid' = get_stats db sid'
    /\ fst (redirect_to_url (snd (redirect_to_url db sid)) sid')
       = fst (redirect_to_url db sid')
    /\ get_stats (snd (delete_url db sid)) sid' = get_stats db sid'
    /\ fst (redirect_to_url (snd (delete_url db sid)) sid')
       = fst (redirect_to_url db sid').
Proof.
  intros db sid sid' Hneq. rewrite !redirect_to_url_answer. unfold get_stats.
  rewrite (select_after_redirect_other db sid sid' Hneq).
  rewrite (select_after_delete_other db sid sid' Hneq). auto.
Qed.

Lemma other_codes_untouched_witness :
  get_stats (snd (redirect_to_url example_db2 "aaaaaa")) "bbbbbb"
  = get_stats example_db2 "bbbbbb"
  /\ fst (redirect_to_url (snd (delete_url example_db2 "aaaaaa")) "bbbbbb")
     = fst (redirect_to_url example_db2 "bbbbbb").
Proof.
  destruct (other_codes_untouched example_db2 "aaaaaa" "bbbbbb")
    as (Hstats & _ & _ & Hgo).
  - discriminate.
  - split; [exact Hstats|exact Hgo].
Defined.

Lemma find_app_found :
  forall (A : Type) (f : A -> bool) l l' r,
    find f l = Some r -> find f (l ++ l') = Some r.
Proof.
  induction l as [|y l IH]; cbn [app find]; intros l' r Hf; [discriminate|].
  destruct (f y); auto.
Qed.

(** X9.  Shortening a URL never changes an existing link: for every code
    the table already has, the statistics and the redirect target are the
    same after the call as before. *)
Theorem shorten_url_keeps_links :
  forall (G : Type) (RG : RandomGen G) fuel db (g : G) now u out db' g' sid,
    shorten_url fuel db g now u = Some (out, db', g') ->
    taken db sid = true ->
    get_stats db' sid = get_stats db sid
    /\ fst (redirect_to_url db' sid) = fst (redirect_to_url db sid).
Proof.
  intros G RG fuel db g now u out db' g' sid Hs Htaken.
  assert (Hsame : select_by_short_id db' sid = select_by_short_id db sid).
  { pose proof (step_written G RG _ _ _
                  (step_shorten G fuel g g' u now out db db' Hs)) as Hw.
    inversion Hw as [rq|s|s|s u0 now0 Hfree]; subst; [reflexivity|].
    unfold taken in Htaken.
    destruct (select_by_short_id db sid) as [r|] eqn:Hsel; [|discriminate].
    unfold select_by_short_id in *. cbn [urls].
    now apply find_app_found. }
  rewrite !redirect_to_url_answer. unfold get_stats. now rewrite Hsame.
Qed.

Lemma shorten_url_keeps_links_witness :
  get_stats example_db2 "aaaaaa" = get_stats example_db "aaaaaa"
  /\ fst (redirect_to_url example_db2 "aaaaaa")
     = fst (redirect_to_url example_db "aaaaaa").
Proof.
  apply (shorten_url_keeps_links tape tape_gen 2%nat example_db
           (switch_tape 6 0 1) "2024-01-01 00:00:05" "https://example.com/b"
           (Return (created_response "bbbbbb" "https://example.com/b"))
           example_db2 (mk_tape (raw (switch_tape 6 0 1)) 12) "aaaaaa");
    reflexivity.
Defined.

(** ** The startup report *)

Lemma or_zero_sum_clicks :
  forall db, or_zero (sum_clicks db) = total_clicks (urls db).
Proof.
  intros db. unfold sum_clicks. destruct (urls db) as [|x l]; [reflexivity|].
  cbn [or_zero]. destruct (total_clicks (x :: l) =? 0) eqn:Hz; [|reflexivity].
  apply Z.eqb_eq in Hz. now rewrite Hz.
Qed.

Lemma total_clicks_app :
  forall l1 l2, total_clicks (l1 ++ l2) = total_clicks l1 + total_clicks l2.
Proof.
  induction l1 as [|x l1 IH]; intros l2; cbn [app total_clicks fold_right];
    [reflexivity|].
  fold (total_clicks (l1 ++ l2)). fold (total_clicks l1). rewrite IH. lia.
Qed.

Lemma total_clicks_update :
  forall db sid,
    unique_codes db ->
    total_clicks (urls (update_clicks db sid))
    = total_clicks (urls db) + (if taken db sid then 1 else 0).
Proof.
  intros db sid Hu. unfold taken. cbn [update_clicks urls].
  destruct (select_by_short_id db sid) as [r|] eqn:Hsel.
  - destruct (select_by_short_id_Some _ _ _ Hsel) as [Hin Hsid]. subst sid.
    destruct (unique_codes_split db r Hu Hin) as (before & after & Heq & Hb & Ha).
    rewrite Heq, map_app. cbn [map].
    rewrite (click_other_rows _ _ Hb), (click_other_rows _ _ Ha).
    unfold click. rewrite String.eqb_refl. rewrite !total_clicks_app.
    cbn [total_clicks fold_right clicked clicks]. lia.
  - rewrite select_by_short_id_None in Hsel.
    rewrite (click_other_rows _ _ Hsel). lia.
Qed.

Lemma total_clicks_filter :
  forall (p : row -> bool) l,
    Forall (fun r => 0 <= clicks r) l ->
    0 <= total_clicks (filter p l) <= total_clicks l.
Proof.
  induction l as [|x l IH]; intros Hnn; cbn [filter total_clicks fold_right];
    [lia|].
  apply Forall_cons_iff in Hnn. destruct Hnn as [Hx Hl]. specialize (IH Hl).
  fold (total_clicks l).
  destruct (p x); cbn [total_clicks fold_right];
    fold (total_clicks (filter p l)); lia.
Qed.

Lemma filter_length_snoc :
  forall (p : request -> bool) rqs rq,
    List.length (filter p (rqs ++ [rq]))
    = (List.length (filter p rqs) + (if p rq then 1 else 0))%nat.
Proof.
  intros p rqs rq. rewrite filter_app, length_app. cbn [filter].
  now destruct (p rq).
Qed.

Lemma run_report :
  forall (G : Type) (RG : RandomGen G) db0 rqs db,
    run G db0 rqs db -> db0 = empty_db ->
    consistent db
    /\ (count db <= List.length (filter is_shorten rqs))%nat
    /\ 0 <= total_clicks (urls db)
         <= Z.of_nat (List.length (filter is_redirect rqs)).
Proof.
  intros G RG db0 rqs db Hrun.
  induction Hrun as [db|db rqs db1 rq db2 Hrun IH Hstep]; intros Hempty.
  - subst db. split; [exact empty_db_consistent|]. cbn. lia.
  - destruct (IH Hempty) as (Hc & Hcount & Htotal).
    pose proof (step_written G RG _ _ _ Hstep) as Hw.
    split; [exact (written_consistent _ _ _ Hw Hc)|].
    rewrite !filter_length_snoc. unfold count in *.
    destruct Hc as (Hcodes & _ & Hnn).
    destruct Hw as [rq|sid|sid|sid u now Hfree].
    + split; lia.
    + cbn [is_shorten is_redirect update_clicks urls].
      rewrite length_map. split; [lia|].
      pose proof (total_clicks_update db1 sid Hcodes) as Hup.
      cbn [update_clicks urls] in Hup. rewrite Hup.
      destruct (taken db1 sid); lia.
    + cbn [is_shorten is_redirect delete_by_short_id urls].
      pose proof (total_clicks_filter
                    (fun r => negb (String.eqb (short_id r) sid)) _ Hnn).
      pose proof (filter_length_le
                    (fun r => negb (String.eqb (short_id r) sid)) (urls db1)).
      split; lia.
    + cbn [is_shorten is_redirect urls]. rewrite length_app, total_clicks_app.
      cbn [List.length total_clicks fold_right created_row clicks]. split; lia.
Qed.

(** X10.  What [lifespan] reports at startup on a database that a sequence
    of requests built from the empty one: the database itself is not
    changed, the number of links is at most the number of shorten requests,
    and the total of the counters lies between 0 and the number of redirect
    requests.  On an empty table the total is 0. *)
Theorem lifespan_report :
  forall (G : Type) (RG : RandomGen G) rqs db,
    run G empty_db rqs db ->
    fst (lifespan (Some db)) = db
    /\ fst (snd (lifespan (Some db))) = List.length (urls db)
    /\ (fst (snd (lifespan (Some db))) <= List.length (filter is_shorten rqs))%nat
    /\ 0 <= snd (snd (lifespan (Some db)))
         <= Z.of_nat (List.length (filter is_redirect rqs))
    /\ (urls db = [] -> snd (snd (lifespan (Some db))) = 0).
Proof.
  intros G RG rqs db Hrun.
  destruct (run_report G RG _ _ _ Hrun eq_refl) as (_ & Hcount & Htotal).
  unfold lifespan. cbn [init_db fst snd]. rewrite or_zero_sum_clicks.
  split; [reflexivity|]. split; [reflexivity|]. split; [exact Hcount|].
  split; [exact Htotal|]. intros Hnil. now rewrite Hnil.
Qed.

Lemma lifespan_report_witness :
  (fst (snd (lifespan (Some (snd (redirect_to_url example_db2 "aaaaaa"))))) <= 2)%nat
  /\ 0 <= snd (snd (lifespan (Some (snd (redirect_to_url example_db2 "aaaaaa")))))
       <= 1.
Proof.
  assert (Hrun : run tape empty_db (example_requests ++ [Redirect "aaaaaa"])%list
                   (snd (redirect_to_url example_db2 "aaaaaa"))).
  { apply (run_snoc tape _ _ example_db2); [|apply step_redirect].
    unfold example_requests.
    apply (run_snoc tape _ _ example_db).
    - apply (run_snoc tape _ [] empty_db); [apply run_nil|].
      apply (step_shorten tape 1%nat (constant_tape 0)
               (mk_tape (fun _ => 0%nat) 6) _ _
               (Return (created_response "aaaaaa" "https://example.com/a"))).
      reflexivity.
    - apply (step_shorten tape 2%nat (switch_tape 6 0 1)
               (mk_tape (raw (switch_tape 6 0 1)) 12) _ _
               (Return (created_response "bbbbbb" "https://example.com/b"))).
      reflexivity. }
  destruct (lifespan_report tape tape_gen _ _ Hrun)
    as (_ & _ & Hcount & Htotal & _).
  split; [exact Hcount|exact Htotal].
Defined.

(** ** [generate_short_id] at any length *)

Lemma generate_short_id_tape :
  forall n t,
    snd (generate_short_id n t) = mk_tape (raw t) (pos t + n).
Proof.
  induction n as [|n IH]; intros [rw p]; cbn [generate_short_id].
  - cbn [snd raw pos]. f_equal. lia.
  - unfold choice. cbn [randbelow tape_gen tape_randbelow raw pos].
    specialize (IH (mk_tape rw (S p))).
    destruct (generate_short_id n (mk_tape rw (S p))) as [s t2].
    cbn [snd raw pos] in *. rewrite IH. f_equal. lia.
Qed.

(** X11.  For every requested length [n], [generate_short_id] gives a
    string of exactly [n] characters, all of them letters or digits; for
    [n = 0] that is the empty string and the generator is not used; and one
    draw is made per character. *)
Theorem generate_short_id_any_length :
  forall (G : Type) (RG : RandomGen G) n (g : G),
    String.length (fst (generate_short_id n g)) = n
    /\ forallb alphanumeric (list_ascii_of_string (fst (generate_short_id n g)))
       = true
    /\ generate_short_id 0 g = (EmptyString, g)
    /\ (forall t : tape,
          snd (generate_short_id n t) = mk_tape (raw t) (pos t + n)).
Proof.
  intros G RG n g. split; [apply generate_short_id_length|].
  split; [apply generate_short_id_alphanumeric|].
  split; [reflexivity|]. intros t. apply generate_short_id_tape.
Qed.

(** ** Shortening again after a delete *)

(** X12.  After the link of a URL has been deleted, shortening the same URL
    again does not bring the old row back: the call takes the generation
    path and stores a new row with counter 0 and a rowid larger than the
    deleted one. *)
Theorem delete_then_shorten :
  forall (G : Type) (RG : RandomGen G) db r fuel (g : G) now out db2 g',
    consistent db -> unique_urls db -> In r (urls db) ->
    shorten_url fuel (snd (delete_url db (short_id r))) g now (full_url r)
    = Some (out, db2, g') ->
    exists sid row,
      out = Return (created_response sid (full_url r))
      /\ In row (urls db2)
      /\ short_id row = sid /\ full_url row = full_url r
      /\ clicks row = 0 /\ id r < id row
      /\ ~ In r (urls db2).
Proof.
  intros G RG db r fuel g now out db2 g' (Hcodes & (Hids & Hseq) & _) Hurls Hin Hs.
  assert (Hdel : snd (delete_url db (short_id r)) = delete_by_short_id db (short_id r)).
  { unfold delete_url.
    now rewrite (select_by_short_id_unique db (short_id r) r Hcodes Hin eq_refl). }
  rewrite Hdel in Hs. set (db1 := delete_by_short_id db (short_id r)) in *.
  assert (Hgone : forall x, In x (urls db1) -> In x (urls db) /\ short_id x <> short_id r).
  { intros x Hx. subst db1. cbn [delete_by_short_id urls] in Hx.
    apply filter_In in Hx. destruct Hx as [Hx Hneq]. split; [exact Hx|].
    intros Heq. rewrite Heq, String.eqb_refl in Hneq. discriminate Hneq. }
  assert (Hsel : select_by_full_url db1 (full_url r) = None).
  { unfold select_by_full_url.
    destruct (find _ (urls db1)) as [x|] eqn:Hf; [|reflexivity].
    apply find_some in Hf. destruct Hf as [Hx Heq]. apply String.eqb_eq in Heq.
    destruct (Hgone x Hx) as [Hxin Hneq]. elim Hneq.
    now rewrite (NoDup_map_same _ _ full_url (urls db) x r Hurls Hxin Hin Heq). }
  destruct (shorten_url_fresh _ _ _ _ _ _ _ _ Hsel Hs) as (sid & _ & Hout & Hdb).
  assert (Hnew : id r < next_rowid db1).
  { rewrite Forall_forall in Hseq. specialize (Hseq r Hin).
    unfold next_rowid. subst db1. cbn [delete_by_short_id sqlite_sequence]. lia. }
  exists sid, (created_row db1 sid (full_url r) now).
  split; [exact Hout|]. subst db2. cbn [urls].
  split; [apply in_or_app; right; now left|].
  split; [reflexivity|]. split; [reflexivity|]. split; [reflexivity|].
  split; [exact Hnew|].
  intros Hr. apply in_app_or in Hr. destruct Hr as [Hr|[Hr|[]]].
  - destruct (Hgone r Hr) as [_ Hneq]. now apply Hneq.
  - rewrite <- Hr in Hnew. cbn [created_row id] in Hnew. lia.
Qed.

Lemma delete_then_shorten_witness :
  exists sid row,
    Return (created_response "aaaaaa" "https://example.com/a")
    = Return (created_response sid "https://example.com/a")
    /\ In row [example_row2;
               mk_row 3 "aaaaaa" "https://example.com/a" "2024-01-02 00:00:00" 0]
    /\ short_id row = sid /\ full_url row = "https://example.com/a"
    /\ clicks row = 0 /\ 1 < id row
    /\ ~ In example_row
           [example_row2;
            mk_row 3 "aaaaaa" "https://example.com/a" "2024-01-02 00:00:00" 0].
Proof.
  apply (delete_then_shorten tape tape_gen example_db2 example_row 1%nat
           (constant_tape 0) "2024-01-02 00:00:00"
           (Return (created_response "aaaaaa" "https://example.com/a"))
           (mk_db [example_row2;
                   mk_row 3 "aaaaaa" "https://example.com/a"
                     "2024-01-02 00:00:00" 0] 3)
           (mk_tape (fun _ => 0%nat) 6)).
  - unfold consistent, unique_codes, rowids_ok, clicks_nonneg. simpl.
    repeat split; repeat constructor; simpl; try lia; intuition discriminate.
  - unfold unique_urls. simpl.
    repeat constructor; simpl; intuition discriminate.
  - simpl. left. reflexivity.
  - reflexivity.
Defined.

End ShortUrlProofs.

(** * The to-do service: proofs *)

Module TodoProofs.

Import Todo.

Lemma select_by_id_Some :
  forall db item_id r,
    select_by_id db item_id = Some r -> In r (tasks db) /\ id r = item_id.
Proof.
  unfold select_by_id. intros db item_id r Hf. apply find_some in Hf.
  destruct Hf as [Hin Heq]. apply Z.eqb_eq in Heq. auto.
Qed.

Lemma select_by_id_None :
  forall db item_id,
    select_by_id db item_id = None <->
    (forall r, In r (tasks db) -> id r <> item_id).
Proof.
  unfold select_by_id. intros db item_id. split.
  - intros Hf r Hin. apply Z.eqb_neq. exact (find_none _ _ Hf r Hin).
  - intros Hno. destruct (find _ (tasks db)) as [r|] eqn:Hf; [|reflexivity].
    apply find_some in Hf. destruct Hf as [Hin Heq].
    apply Z.eqb_eq in Heq. elim (Hno r Hin Heq).
Qed.

Lemma assign_all_fields :
  forall r body, fold_left assign (update_fields body) r = partial_update r body.
Proof.
  intros [i t d c] [[vt|] [vd|] [vc|]]; reflexivity.
Qed.

Lemma partial_update_id : forall r body, id (partial_update r body) = id r.
Proof. reflexivity. Qed.

(** The rows after the handler's optional [UPDATE]. *)
Lemma update_task_rows :
  forall db item_id body,
    match update_fields body with
    | [] => db
    | sets => update_by_id db sets item_id
    end
    = mk_db (map (fun r => if id r =? item_id then partial_update r body else r)
                 (tasks db))
            (sqlite_sequence db).
Proof.
  intros [rows sq] item_id body.
  assert (Hmap : update_by_id (mk_db rows sq) (update_fields body) item_id
                 = mk_db (map (fun r => if id r =? item_id
                                        then partial_update r body else r) rows) sq).
  { unfold update_by_id. cbn [tasks sqlite_sequence]. f_equal.
    apply map_ext. intros r. now rewrite assign_all_fields. }
  destruct (update_fields body) as [|a sets] eqn:Hsets; [|exact Hmap].
  cbn [tasks sqlite_sequence]. f_equal.
  rewrite <- (map_id rows) at 1. apply map_ext. intros r.
  destruct (id r =? item_id); [|reflexivity].
  rewrite <- assign_all_fields, Hsets. reflexivity.
Qed.




(** The primary key stays unique under every handler that writes. *)

Lemma task_rowid_le_max :
  forall rows r, In r rows -> id r <= max_rowid rows.
Proof.
  induction rows as [|x rows IH]; simpl; intros r Hin; [contradiction|].
  destruct Hin as [->|Hin]; [lia|]. specialize (IH r Hin). lia.
Qed.

Lemma create_task_unique_ids :
  forall db task, unique_ids db -> unique_ids (snd (create_task db task)).
Proof.
  unfold unique_ids, create_task, insert_task. intros db task Hu.
  cbn [snd tasks]. rewrite map_app. cbn [map id].
  apply NoDup_app; [exact Hu|repeat constructor; intros []|].
  intros a Ha [<-|[]]. apply in_map_iff in Ha. destruct Ha as (x & Hx & Hin).
  pose proof (task_rowid_le_max _ _ Hin). unfold next_rowid in Hx. lia.
Qed.

Lemma update_task_unique_ids :
  forall db item_id body,
    unique_ids db -> unique_ids (snd (update_task db item_id body)).
Proof.
  unfold unique_ids, update_task. intros db item_id body Hu.
  destruct (select_by_id db item_id); [|exact Hu].
  rewrite update_task_rows.
  set (db' := mk_db _ _).
  assert (Hids : map id (tasks db') = map id (tasks db)).
  { subst db'. cbn [tasks]. rewrite map_map. apply map_ext. intros x.
    now destruct (id x =? item_id). }
  destruct (select_by_id db' item_id); cbn [snd]; now rewrite Hids.
Qed.

Lemma delete_task_unique_ids :
  forall db item_id, unique_ids db -> unique_ids (snd (delete_task db item_id)).
Proof.
  unfold unique_ids, delete_task. intros db item_id Hu.
  destruct (select_by_id db item_id); [|exact Hu].
  cbn [snd delete_by_id tasks]. now apply NoDup_map_filter.
Qed.

(** ** Ids that cannot be bound *)

Lemma no_task_in_range :
  forall item_id, sqlite_integer item_id = true -> no_task item_id = not_found.
Proof. intros item_id Hin. unfold no_task. now rewrite Hin. Qed.

Lemma no_task_out_of_range :
  forall item_id, sqlite_integer item_id = false -> no_task item_id = OverflowError.
Proof. intros item_id Hout. unfold no_task. now rewrite Hout. Qed.

Lemma no_task_not_found :
  forall (A : Type) item_id,
    @Raise A (no_task item_id) = Raise not_found
    <-> sqlite_integer item_id = true.
Proof.
  intros A item_id. unfold no_task.
  destruct (sqlite_integer item_id); split; intros Heq;
    try reflexivity; discriminate Heq.
Qed.

Lemma rowids_64bit_missing :
  forall db item_id,
    rowids_64bit db -> sqlite_integer item_id = false ->
    forall r, In r (tasks db) -> id r <> item_id.
Proof.
  unfold rowids_64bit. intros db item_id Hok Hout r Hin Heq.
  rewrite Forall_forall in Hok. specialize (Hok r Hin).
  rewrite Heq in Hok. congruence.
Qed.

(** C9.  Where [update_task] misses the 404: for an id outside the signed
    64-bit range no task has the id, since every stored id is in the range,
    yet the handler does not answer the 404: binding the id for the first
    [SELECT] raises [OverflowError], which nothing catches, and nothing is
    written. *)
Theorem update_task_id_out_of_range :
  forall db item_id body,
    rowids_64bit db -> sqlite_integer item_id = false ->
    (forall r, In r (tasks db) -> id r <> item_id)
    /\ update_task db item_id body = (Raise OverflowError, db)
    /\ fst (update_task db item_id body) <> Raise not_found.
Proof.
  intros db item_id body Hok Hout.
  pose proof (rowids_64bit_missing db item_id Hok Hout) as Hno.
  assert (Hup : update_task db item_id body = (Raise OverflowError, db)).
  { unfold update_task. rewrite (proj2 (select_by_id_None db item_id) Hno).
    now rewrite (no_task_out_of_range _ Hout). }
  split; [exact Hno|]. split; [exact Hup|].
  rewrite Hup. discriminate.
Qed.

Lemma update_task_id_out_of_range_witness :
  (forall r, In r (tasks example_db) -> id r <> 9223372036854775808)
  /\ update_task example_db 9223372036854775808 example_body
     = (Raise OverflowError, example_db)
  /\ fst (update_task example_db 9223372036854775808 example_body)
     <> Raise not_found.
Proof.
  apply (update_task_id_out_of_range example_db 9223372036854775808 example_body).
  - repeat constructor.
  - reflexivity.
Defined.



(** * The to-do service: further properties *)

(** ** [get_task] and [get_all_tasks] *)

Lemma select_by_id_unique :
  forall db item_id r,
    unique_ids db -> In r (tasks db) -> id r = item_id ->
    select_by_id db item_id = Some r.
Proof.
  intros db item_id r Hu Hin Hid.
  destruct (select_by_id db item_id) as [r0|] eqn:Hsel.
  - destruct (select_by_id_Some _ _ _ Hsel) as [Hin0 Hid0]. f_equal.
    apply (NoDup_map_same _ _ id (tasks db)); auto. congruence.
  - rewrite select_by_id_None in Hsel. elim (Hsel r Hin Hid).
Qed.

(** X13.  [get_task] raises the 404 exactly when the id is in the signed
    64-bit range and no task has it; for an id outside the range it ends
    with the [OverflowError] of the binding; with the ids unique it answers
    a task exactly when [get_all_tasks] lists that task under that id. *)
Theorem get_task_spec :
  forall db item_id,
    (get_task db item_id = Raise not_found
     <-> sqlite_integer item_id = true
         /\ (forall r, In r (tasks db) -> id r <> item_id))
    /\ (rowids_64bit db -> sqlite_integer item_id = false ->
        get_task db item_id = Raise OverflowError)
    /\ (forall r,
          unique_ids db ->
          (get_task db item_id = Return r
           <-> In r (get_all_tasks db) /\ id r = item_id)).
Proof.
  intros db item_id. split; [|split].
  - rewrite <- select_by_id_None. unfold get_task.
    destruct (select_by_id db item_id) as [r0|]; split.
    + discriminate.
    + intros [_ Hno]. discriminate Hno.
    + intros Hraise. split; [exact (proj1 (no_task_not_found _ item_id) Hraise)|reflexivity].
    + intros [Hrange _]. now rewrite (no_task_in_range _ Hrange).
  - intros Hok Hout. unfold get_task.
    rewrite (proj2 (select_by_id_None db item_id)
               (rowids_64bit_missing db item_id Hok Hout)).
    now rewrite (no_task_out_of_range _ Hout).
  - intros r Hu. unfold get_task, get_all_tasks. split.
    + destruct (select_by_id db item_id) as [r0|] eqn:Hsel; [|discriminate].
      intros Heq. inversion Heq; subst r0.
      exact (select_by_id_Some _ _ _ Hsel).
    + intros [Hin Hid]. now rewrite (select_by_id_unique db item_id r Hu Hin Hid).
Qed.

Lemma get_task_spec_witness :
  get_task example_db 9223372036854775808 = Raise OverflowError
  /\ (get_task example_db 2 = Return example_task2
      <-> In example_task2 (get_all_tasks example_db) /\ id example_task2 = 2).
Proof.
  split.
  - destruct (get_task_spec example_db 9223372036854775808) as (_ & Hout & _).
    apply Hout; [repeat constructor|reflexivity].
  - destruct (get_task_spec example_db 2) as (_ & _ & Hhit).
    apply (Hhit example_task2).
    repeat constructor; simpl; intuition discriminate.
Defined.

(** ** [create_task] *)



Lemma next_rowid_positive : forall db, 0 < next_rowid db.
Proof.
  intros db. unfold next_rowid.
  assert (Hmax : 0 <= max_rowid (tasks db)).
  { induction (tasks db) as [|x l IH]; cbn [max_rowid fold_right]; [lia|].
    fold (max_rowid l). lia. }
  lia.
Qed.


(** ** [delete_task] *)

Lemma select_by_id_delete_other :
  forall db item_id other,
    other <> item_id ->
    select_by_id (delete_by_id db item_id) other = select_by_id db other.
Proof.
  intros db item_id other Hneq. unfold select_by_id, delete_by_id. cbn [tasks].
  induction (tasks db) as [|x l IH]; [reflexivity|].
  cbn [filter find]. destruct (id x =? item_id) eqn:Hx; cbn [negb].
  - apply Z.eqb_eq in Hx.
    assert (Ho : (id x =? other) = false) by (apply Z.eqb_neq; congruence).
    now rewrite Ho.
  - cbn [find]. now rewrite IH.
Qed.

(** X15.  [delete_task] raises the 404 exactly when the id is in the
    signed 64-bit range and no task has it; for an id outside the range it
    ends with the [OverflowError] of the binding; in both cases, as
    whenever no task has the id, nothing is written.  When a task has the
    id the call succeeds, the tasks with other ids are kept as they are and
    in their order, and [get_task] with the deleted id raises the 404
    afterwards.  [get_task] with any other id answers as before. *)
Theorem delete_task_spec :
  forall db item_id,
    (fst (delete_task db item_id) = Raise not_found
     <-> sqlite_integer item_id = true
         /\ (forall r, In r (tasks db) -> id r <> item_id))
    /\ ((forall r, In r (tasks db) -> id r <> item_id) ->
        snd (delete_task db item_id) = db)
    /\ (rowids_64bit db -> sqlite_integer item_id = false ->
        delete_task db item_id = (Raise OverflowError, db))
    /\ (forall r,
          rowids_64bit db -> In r (tasks db) -> id r = item_id ->
          fst (delete_task db item_id) = Return "Task deleted successfully"
          /\ tasks (snd (delete_task db item_id))
             = filter (fun x => negb (id x =? item_id)) (tasks db)
          /\ get_task (snd (delete_task db item_id)) item_id = Raise not_found)
    /\ (forall other,
          other <> item_id ->
          get_task (snd (delete_task db item_id)) other = get_task db other).
Proof.
  intros db item_id. unfold delete_task.
  destruct (select_by_id db item_id) as [r0|] eqn:Hsel; cbn [fst snd].
  - destruct (select_by_id_Some _ _ _ Hsel) as [Hin0 Hid0].
    split; [split; [discriminate|intros [_ Hno]; elim (Hno r0 Hin0 Hid0)]|].
    split; [intros Hno; elim (Hno r0 Hin0 Hid0)|].
    split; [intros Hok Hout;
            elim (rowids_64bit_missing db item_id Hok Hout r0 Hin0 Hid0)|].
    split.
    + intros r Hok Hin Hid. split; [reflexivity|]. split; [reflexivity|].
      unfold get_task.
      assert (Hgone : select_by_id (delete_by_id db item_id) item_id = None).
      { apply select_by_id_None. cbn [delete_by_id tasks]. intros x Hx Hsame.
        apply filter_In in Hx. destruct Hx as [_ Hx].
        apply Z.eqb_eq in Hsame. rewrite Hsame in Hx. discriminate Hx. }
      rewrite Hgone. f_equal. apply no_task_in_range.
      unfold rowids_64bit in Hok. rewrite Forall_forall in Hok.
      rewrite <- Hid. now apply Hok.
    + intros other Hneq. unfold get_task.
      now rewrite (select_by_id_delete_other db item_id other Hneq).
  - pose proof (proj1 (select_by_id_None db item_id) Hsel) as Hno.
    split; [split|].
    + intros Hraise. split; [exact (proj1 (no_task_not_found _ item_id) Hraise)|exact Hno].
    + intros [Hrange _]. now rewrite (no_task_in_range _ Hrange).
    + split; [reflexivity|]. split.
      * intros _ Hout. now rewrite (no_task_out_of_range _ Hout).
      * split; [|reflexivity]. intros r _ Hin Hid. elim (Hno r Hin Hid).
Qed.

Lemma delete_task_spec_witness :
  snd (delete_task example_db 7) = example_db
  /\ delete_task example_db (-9223372036854775809)
     = (Raise OverflowError, example_db)
  /\ tasks (snd (delete_task example_db 1)) = [example_task2]
  /\ get_task (snd (delete_task example_db 1)) 1 = Raise not_found
  /\ get_task (snd (delete_task example_db 1)) 2 = get_task example_db 2.
Proof.
  destruct (delete_task_spec example_db 7) as (_ & Hmiss & _).
  destruct (delete_task_spec example_db (-9223372036854775809))
    as (_ & _ & Hout & _).
  destruct (delete_task_spec example_db 1) as (_ & _ & _ & Hhit & Hother).
  split; [|split; [|split; [|split]]].
  - apply Hmiss. intros r [<-|[<-|[]]]; discriminate.
  - apply Hout; [repeat constructor|reflexivity].
  - apply (Hhit example_task1); [repeat constructor|simpl; left|]; reflexivity.
  - apply (Hhit example_task1); [repeat constructor|simpl; left|]; reflexivity.
  - apply Hother. discriminate.
Defined.

(** ** [update_task] in closed form *)

Lemma updated_rows_ids :
  forall item_id body rows, map id (updated_rows item_id body rows) = map id rows.
Proof.
  intros item_id body rows. unfold updated_rows. rewrite map_map.
  apply map_ext. intros x. now destruct (id x =? item_id).
Qed.

Lemma find_updated_rows :
  forall item_id body rows,
    find (fun r => id r =? item_id) (updated_rows item_id body rows)
    = option_map (fun r => partial_update r body)
        (find (fun r => id r =? item_id) rows).
Proof.
  intros item_id body rows. unfold updated_rows.
  induction rows as [|x l IH]; [reflexivity|]. cbn [map find].
  destruct (id x =? item_id) eqn:Hx.
  - rewrite partial_update_id, Hx. reflexivity.
  - rewrite Hx. exact IH.
Qed.

Lemma update_task_closed :
  forall db item_id body,
    update_task db item_id body
    = match select_by_id db item_id with
      | None => (Raise (no_task item_id), db)
      | Some r =>
          (Return (partial_update r body),
           mk_db (updated_rows item_id body (tasks db)) (sqlite_sequence db))
      end.
Proof.
  intros db item_id body. unfold update_task.
  destruct (select_by_id db item_id) as [r|] eqn:Hsel; [|reflexivity].
  rewrite update_task_rows. fold (updated_rows item_id body (tasks db)).
  unfold select_by_id in *. cbn [tasks].
  now rewrite find_updated_rows, Hsel.
Qed.

Lemma partial_update_twice :
  forall r body, partial_update (partial_update r body) body = partial_update r body.
Proof.
  intros [i t d c] [[vt|] [vd|] [vc|]]; reflexivity.
Qed.

Lemma updated_rows_twice :
  forall item_id body rows,
    updated_rows item_id body (updated_rows item_id body rows)
    = updated_rows item_id body rows.
Proof.
  intros item_id body rows. unfold updated_rows. rewrite map_map.
  apply map_ext. intros x. destruct (id x =? item_id) eqn:Hx.
  - now rewrite partial_update_id, Hx, partial_update_twice.
  - now rewrite Hx.
Qed.

(** X16.  [update_task] is idempotent: sending the same body for the same
    id a second time gives the same answer and leaves the database the
    first call left. *)
Theorem update_task_idempotent :
  forall db item_id body,
    update_task (snd (update_task db item_id body)) item_id body
    = update_task db item_id body.
Proof.
  intros db item_id body. rewrite (update_task_closed db item_id body).
  destruct (select_by_id db item_id) as [r|] eqn:Hsel; cbn [snd].
  - rewrite update_task_closed. unfold select_by_id in *. cbn [tasks sqlite_sequence].
    rewrite find_updated_rows, Hsel. cbn [option_map].
    now rewrite partial_update_twice, updated_rows_twice.
  - rewrite update_task_closed. now rewrite Hsel.
Qed.

(** X17.  A body that names no field changes nothing: when a task has the
    id, [update_task] answers the stored task (the first with that id) and
    the database is the one before. *)
Theorem update_task_empty_body :
  forall db item_id r,
    In r (tasks db) -> id r = item_id ->
    exists r0,
      In r0 (tasks db) /\ id r0 = item_id
      /\ update_task db item_id empty_body = (Return r0, db).
Proof.
  intros db item_id r Hin Hid. unfold update_task.
  destruct (select_by_id db item_id) as [r0|] eqn:Hsel.
  - exists r0. destruct (select_by_id_Some _ _ _ Hsel) as [Hin0 Hid0].
    split; [exact Hin0|]. split; [exact Hid0|].
    cbn [update_fields empty_body TaskUpdate.title TaskUpdate.description
           TaskUpdate.completed app].
    now rewrite Hsel.
  - rewrite select_by_id_None in Hsel. elim (Hsel r Hin Hid).
Qed.

Lemma update_task_empty_body_witness :
  exists r0,
    In r0 (tasks example_db) /\ id r0 = 2
    /\ update_task example_db 2 empty_body = (Return r0, example_db).
Proof.
  apply (update_task_empty_body example_db 2 example_task2).
  - simpl. right. left. reflexivity.
  - reflexivity.
Defined.

(** X18.  What [update_task] cannot do: it adds no task, removes none and
    changes no id, and no body makes a description that is set disappear
    (a null field means that the stored value is kept). *)
Theorem update_task_keeps_ids_and_descriptions :
  forall db item_id body,
    map id (tasks (snd (update_task db item_id body))) = map id (tasks db)
    /\ sqlite_sequence (snd (update_task db item_id body)) = sqlite_sequence db
    /\ Forall2 (fun r r' => description r <> None -> description r' <> None)
         (tasks db) (tasks (snd (update_task db item_id body))).
Proof.
  intros db item_id body. rewrite update_task_closed.
  assert (Hsame : Forall2 (fun r r' : row =>
                             description r <> None -> description r' <> None)
                    (tasks db) (tasks db)).
  { induction (tasks db); constructor; auto. }
  destruct (select_by_id db item_id); cbn [snd tasks sqlite_sequence];
    [|auto].
  split; [apply updated_rows_ids|]. split; [reflexivity|].
  unfold updated_rows. clear Hsame.
  induction (tasks db) as [|x l IH]; cbn [map]; constructor; [|exact IH].
  destruct (id x =? item_id); [|auto].
  destruct x as [i t d c], body as [vt [vd|] vc];
    cbn [partial_update description TaskUpdate.description]; [discriminate|auto].
Qed.

(** X19.  What [update_task] answers is what is stored: when the call
    answers a task, [get_task] with the same id on the database the call
    left answers that task. *)
Theorem update_task_then_get :
  forall db item_id body r,
    fst (update_task db item_id body) = Return r ->
    get_task (snd (update_task db item_id body)) item_id = Return r.
Proof.
  intros db item_id body r. rewrite update_task_closed.
  destruct (select_by_id db item_id) as [r0|] eqn:Hsel; cbn [fst snd];
    [|discriminate].
  intros Heq. inversion Heq; subst r. unfold get_task, select_by_id in *.
  cbn [tasks]. now rewrite find_updated_rows, Hsel.
Qed.

Lemma update_task_then_get_witness :
  get_task (snd (update_task example_db 2 example_body)) 2
  = Return (mk_row 2 "buy milk" (Some "two litres") true).
Proof.
  apply (update_task_then_get example_db 2 example_body). reflexivity.
Defined.

(** ** Ids over a sequence of requests *)

Lemma handle_sequence_mono :
  forall db rq, sqlite_sequence db <= sqlite_sequence (handle db rq).
Proof.
  intros db [task| |i|i body|i]; cbn [handle]; try lia.
  - unfold create_task, insert_task. cbn [snd sqlite_sequence].
    unfold next_rowid. lia.
  - rewrite update_task_closed.
    destruct (select_by_id db i); cbn [snd sqlite_sequence]; lia.
  - unfold delete_task.
    destruct (select_by_id db i); cbn [snd delete_by_id sqlite_sequence]; lia.
Qed.

Lemma handle_rowids_ok :
  forall db rq, rowids_ok db -> rowids_ok (handle db rq).
Proof.
  intros db rq [Hnd Hseq]. split.
  - destruct rq as [task| |i|i body|i]; cbn [handle]; try exact Hnd.
    + now apply create_task_unique_ids.
    + now apply update_task_unique_ids.
    + now apply delete_task_unique_ids.
  - rewrite Forall_forall in *.
    destruct rq as [task| |i|i body|i]; cbn [handle]; try exact Hseq.
    + unfold create_task, insert_task. cbn [snd tasks sqlite_sequence].
      intros x Hx. apply in_app_or in Hx. destruct Hx as [Hx|[<-|[]]].
      * specialize (Hseq x Hx). unfold next_rowid. lia.
      * cbn [id]. pose proof (next_rowid_positive db). lia.
    + rewrite update_task_closed.
      destruct (select_by_id db i); cbn [snd tasks sqlite_sequence];
        [|exact Hseq].
      intros x Hx. unfold updated_rows in Hx. apply in_map_iff in Hx.
      destruct Hx as (y & <- & Hy). specialize (Hseq y Hy).
      destruct (id y =? i); [rewrite partial_update_id|]; exact Hseq.
    + unfold delete_task.
      destruct (select_by_id db i); cbn [snd delete_by_id tasks sqlite_sequence];
        [|exact Hseq].
      intros x Hx. apply filter_In in Hx. now apply Hseq.
Qed.

Lemma run_rowids_ok :
  forall rqs db, rowids_ok db -> rowids_ok (run rqs db).
Proof.
  unfold run. induction rqs as [|rq rqs IH]; intros db Hok; [exact Hok|].
  cbn [fold_left]. apply IH. now apply handle_rowids_ok.
Qed.

Lemma run_sequence_grows :
  forall rqs db, sqlite_sequence db <= sqlite_sequence (run rqs db).
Proof.
  unfold run. induction rqs as [|rq rqs IH]; intros db; [cbn; lia|].
  cbn [fold_left]. pose proof (handle_sequence_mono db rq).
  specialize (IH (handle db rq)). lia.
Qed.

(** X20.  Over every sequence of requests starting from the empty table the
    ids of the stored tasks are pairwise different and positive, and an id
    is never handed out again: the id [create_task] assigns is larger than
    the id of every task that was in the table at any earlier point,
    deleted since or not. *)
Theorem task_ids_never_reused :
  forall rqs1 rqs2 task,
    unique_ids (run rqs1 empty_db)
    /\ Forall (fun r => 0 < id r) (tasks (run rqs1 empty_db))
    /\ (forall r,
          In r (tasks (run rqs1 empty_db)) ->
          id r < id (fst (create_task (run rqs2 (run rqs1 empty_db)) task))).
Proof.
  intros rqs1 rqs2 task.
  assert (Hok : rowids_ok (run rqs1 empty_db)).
  { apply run_rowids_ok. split; constructor. }
  destruct Hok as [Hnd Hseq]. split; [exact Hnd|]. split.
  - rewrite Forall_forall in *. intros r Hr. specialize (Hseq r Hr). lia.
  - intros r Hr. rewrite Forall_forall in Hseq. specialize (Hseq r Hr).
    pose proof (run_sequence_grows rqs2 (run rqs1 empty_db)).
    unfold create_task, insert_task. cbn [fst id]. unfold next_rowid. lia.
Qed.

End TodoProofs.
